(** * NarratorFlowAI, main.py: feedback rules, analysis response, plot retrieval

    A shallow embedding of [src/main.py].  Polarities are Python floats, that
    is IEEE-754 binary64 numbers, and are modelled by Rocq's primitive floats,
    so every comparison against a threshold rounds as it does in CPython.
    Python exceptions are the [Raise] case of [result].  The definitions
    come first: the builtins, the feedback rules (as a function of the
    polarity values, and again on a heap of list objects), the analysis
    endpoint and the plot-retrieval endpoint with its route; the lemmas and
    the theorems follow in the same order. *)

From Stdlib Require Import ZArith List String Ascii Bool Lia Floats.
From stdpp Require Import base option list gmap strings.
Import ListNotations.

Set Warnings "-inexact-float,-register-all".

Local Open Scope Z_scope.

(** ** Exceptions and the error monad *)

Inductive exn : Type :=
| ValueError (msg : string)
| IndexError (msg : string)
| TypeError (msg : string)
| SystemError (msg : string)
| FileNotFoundError (path : string)
| NotADirectoryError (path : string)
| RuntimeError (msg : string)
| HTTPException (status : Z).

Inductive result (A : Type) : Type :=
| Ok (a : A)
| Raise (e : exn).
Arguments Ok {A} a.
Arguments Raise {A} e.

#[global] Instance result_ret : MRet result := fun _ a => Ok a.
#[global] Instance result_bind : MBind result := fun _ _ k m =>
  match m with
  | Ok a => k a
  | Raise e => Raise e
  end.

(** ** The Python builtins the module calls *)

Module Py.

(** [len(xs)]. *)
Definition len {A} (xs : list A) : Z := Z.of_nat (length xs).

(** [max(xs)] on floats, as CPython's [min_max] runs it: the first item is
    the candidate, and a later item replaces it when [item > candidate]. *)
Definition max (xs : list float) : result float :=
  match xs with
  | [] => Raise (ValueError "max() arg is an empty sequence")
  | x :: rest =>
      Ok (fold_left (fun best item => if (best <? item)%float then item else best) rest x)
  end.

(** [min(xs)]: a later item replaces the candidate when [item < candidate]. *)
Definition min (xs : list float) : result float :=
  match xs with
  | [] => Raise (ValueError "min() arg is an empty sequence")
  | x :: rest =>
      Ok (fold_left (fun best item => if (item <? best)%float then item else best) rest x)
  end.

(** [xs[i]]: a negative index counts from the end; out of range raises. *)
Definition getitem {A} (xs : list A) (i : Z) : result A :=
  let n := len xs in
  let j := if i <? 0 then i + n else i in
  if (j <? 0) || (n <=? j) then Raise (IndexError "list index out of range")
  else match xs !! Z.to_nat j with
       | Some x => Ok x
       | None => Raise (IndexError "list index out of range")
       end.

(** An int converted to a float for a mixed operation (round to nearest,
    ties to even, as [PyLong_AsDouble]). *)
Definition float_of_int (z : Z) : float :=
  SF2Prim (binary_normalize prec emax z 0 false).

(** The interpreter generations that differ in how [sum] adds floats. *)
Inductive cpython : Type :=
| Before312   (* plain left-to-right additions *)
| From312.    (* Neumaier's compensated summation *)

(** One step of the compensated loop of CPython 3.12 and later: the pair is
    the running sum and the running compensation. *)
Definition neumaier_step (acc : float * float) (x : float) : float * float :=
  let '(f_result, c) := acc in
  let t := (f_result + x)%float in
  let c' := if (abs x <=? abs f_result)%float
            then (c + ((f_result - t) + x))%float
            else (c + ((x - t) + f_result))%float in
  (t, c').

(** [sum(xs)] on floats.  The start value is the int [0]; the first item is
    added to it by the ordinary [0 + item], the rest by the float loop.  (Of
    the empty list Python returns the int [0] itself; the endpoint sums
    non-empty lists only.) *)
Definition sum (v : cpython) (xs : list float) : float :=
  match xs with
  | [] => float_of_int 0
  | x :: rest =>
      let start := (float_of_int 0 + x)%float in
      match v with
      | Before312 => fold_left (fun acc item => (acc + item)%float) rest start
      | From312 =>
          let '(f_result, c) := fold_left neumaier_step rest (start, 0%float) in
          if negb (c =? 0)%float && is_finite c then (f_result + c)%float else f_result
      end
  end.

End Py.

(** ** Feedback rules *)

Definition FLAT_ARC_MSG : string :=
  "The emotional arc is a bit flat. Try adding more variation in tone to make it more engaging.".
Definition LOW_ENDING_MSG : string :=
  "The sentiment at the end is low. A stronger, more positive conclusion could make a better impression.".
Definition FALLBACK_MSG : string :=
  "Great job! The narrative flow seems well-structured.".

(** [get_structural_feedback], lines 44-61.  The local list [feedback] is
    threaded through the three [if] statements; [and] evaluates its right
    operand only when the left one holds. *)
Definition get_structural_feedback (polarities : list float) : result (list string) :=
  let feedback := [] in
  feedback ←
    (if 2 <? Py.len polarities then
       max_pol ← Py.max polarities;
       min_pol ← Py.min polarities;
       if (max_pol - min_pol <? 0.2)%float
       then mret (feedback ++ [FLAT_ARC_MSG])
       else mret feedback
     else mret feedback);
  feedback ←
    (if 0 <? Py.len polarities then
       last_pol ← Py.getitem polarities (-1);
       if (last_pol <? 0.1)%float
       then mret (feedback ++ [LOW_ENDING_MSG])
       else mret feedback
     else mret feedback);
  let feedback :=
    match feedback with
    | [] => feedback ++ [FALLBACK_MSG]
    | _ :: _ => feedback
    end in
  mret feedback.

(** ** The rules as the specification words them

    Section 4.3 of the specification, with the three thresholds as
    parameters so that the code can be compared with the rule set
    instantiated at 2, 0.2 and 0.1. *)

Module Spec.

(** Rule 1 applies: more than [n] entries and
    [max(sequence) - min(sequence) < range_thr]. *)
Definition rule1_applies (n : nat) (range_thr : float) (sequence : list float) : bool :=
  (n <? length sequence)%nat &&
  match Py.max sequence, Py.min sequence with
  | Ok hi, Ok lo => (hi - lo <? range_thr)%float
  | _, _ => false
  end.

(** Rule 2 applies: the sequence is non-empty and its last entry is
    [< end_thr]. *)
Definition rule2_applies (end_thr : float) (sequence : list float) : bool :=
  match last sequence with
  | Some x => (x <? end_thr)%float
  | None => false
  end.

(** The three checks in their fixed order. *)
Definition feedback_rules (n : nat) (range_thr end_thr : float)
    (sequence : list float) : list string :=
  let appended :=
    (if rule1_applies n range_thr sequence then [FLAT_ARC_MSG] else []) ++
    (if rule2_applies end_thr sequence then [LOW_ENDING_MSG] else []) in
  if bool_decide (appended = []) then [FALLBACK_MSG] else appended.

(** The sum of a sequence in floats, as a finite sum is defined: the sum of
    no entry is 0, and the sum of [x1 .. xn] is the sum of [x1 .. x(n-1)]
    plus [xn], every addition rounded to the nearest float.  [sum_to] takes
    the entries from the last one backwards. *)
Fixpoint sum_to (backwards : list float) : float :=
  match backwards with
  | [] => 0%float
  | xn :: earlier => (sum_to earlier + xn)%float
  end.

Definition sum_in_order (sequence : list float) : float := sum_to (rev sequence).

(** The same sum with the rounding errors collected (Neumaier): beside the
    sum [s] of [x1 .. x(n-1)] stands the error [c] made so far; adding [xn]
    gives [t = s + xn], and what the rounding of [t] lost, recovered from
    the larger of [s] and [xn], joins [c].  The first entry is added to 0
    without an error.  At the end [c] is added to the sum, unless it is zero
    or not finite. *)
Fixpoint compensated_to (backwards : list float) : float * float :=
  match backwards with
  | [] => (0%float, 0%float)
  | [x1] => ((0 + x1)%float, 0%float)
  | xn :: earlier =>
      let '(s, c) := compensated_to earlier in
      let t := (s + xn)%float in
      let lost := if (abs xn <=? abs s)%float
                  then ((s - t) + xn)%float
                  else ((xn - t) + s)%float in
      (t, (c + lost)%float)
  end.

Definition compensated_sum (sequence : list float) : float :=
  let '(s, c) := compensated_to (rev sequence) in
  if is_finite c && negb (c =? 0)%float then (s + c)%float else s.

(** The arithmetic mean of a non-empty sequence, in floats: the sum of the
    entries divided by their number.  Which of the two sums it is depends
    on the interpreter that runs the program. *)
Definition arithmetic_mean (v : Py.cpython) (sequence : list float) : float :=
  let total :=
    match v with
    | Py.Before312 => sum_in_order sequence
    | Py.From312 => compensated_sum sequence
    end in
  (total / Py.float_of_int (Z.of_nat (length sequence)))%float.

(** The thresholds the specification fixes. *)
Definition flat_arc (sequence : list float) : bool := rule1_applies 2 0.2 sequence.
Definition low_ending (sequence : list float) : bool := rule2_applies 0.1 sequence.

End Spec.

(** ** State and exceptions together

    A computation that reads and updates a state of type [S] and either
    returns a value or raises; the state survives a raise. *)

Definition stateful (S A : Type) : Type := S -> result A * S.

#[global] Instance stateful_ret {S} : MRet (stateful S) := fun _ a s => (Ok a, s).
#[global] Instance stateful_bind {S} : MBind (stateful S) := fun _ _ k m s =>
  match m s with
  | (Ok a, s') => k a s'
  | (Raise e, s') => (Raise e, s')
  end.

(** A computation that does not touch the state. *)
Definition pure_result {S A} (r : result A) : stateful S A := fun s => (r, s).

(** ** The feedback rules on the object heap

    Python lists are mutable objects reached through references.  Here the
    caller's polarity list and the list [feedback] built by the function are
    objects of one store, so that what the function does to each can be
    told apart. *)

Module Heap.

Inductive pyobj : Type :=
| FloatList (items : list float)
| StrList (items : list string).

(** [[]]: a new, empty list object at an unused address. *)
Definition new_list : stateful (gmap nat pyobj) nat := fun h =>
  let r := fresh (dom h) in (Ok r, <[r := StrList []]> h).

(** [len(p)]. *)
Definition len (p : nat) : stateful (gmap nat pyobj) Z := fun h =>
  match h !! p with
  | Some (FloatList xs) => (Ok (Py.len xs), h)
  | Some (StrList xs) => (Ok (Py.len xs), h)
  | None => (Raise (SystemError "no object at this address"), h)
  end.

(** A read-only builtin applied to the floats of the list at [p]; the
    numeric builtins are modelled on lists of floats only. *)
Definition read_floats {A} (f : list float -> result A) (p : nat) :
    stateful (gmap nat pyobj) A := fun h =>
  match h !! p with
  | Some (FloatList xs) => (f xs, h)
  | Some (StrList _) => (Raise (TypeError "a list of floats is expected"), h)
  | None => (Raise (SystemError "no object at this address"), h)
  end.

Definition max (p : nat) : stateful (gmap nat pyobj) float := read_floats Py.max p.
Definition min (p : nat) : stateful (gmap nat pyobj) float := read_floats Py.min p.
Definition getitem (p : nat) (i : Z) : stateful (gmap nat pyobj) float :=
  read_floats (fun xs => Py.getitem xs i) p.

(** [p.append(s)]: the one operation of the function that mutates a list. *)
Definition append (p : nat) (s : string) : stateful (gmap nat pyobj) unit := fun h =>
  match h !! p with
  | Some (StrList xs) => (Ok tt, <[p := StrList (xs ++ [s])]> h)
  | Some (FloatList _) => (Raise (TypeError "a list of str is expected"), h)
  | None => (Raise (SystemError "no object at this address"), h)
  end.

(** [get_structural_feedback], lines 44-61, statement by statement; the
    argument and the result are references. *)
Definition get_structural_feedback (polarities : nat) : stateful (gmap nat pyobj) nat :=
  feedback ← new_list;
  (n ← len polarities;
   if 2 <? n then
     max_pol ← max polarities;
     min_pol ← min polarities;
     if (max_pol - min_pol <? 0.2)%float
     then append feedback FLAT_ARC_MSG
     else mret tt
   else mret tt);;
  (n ← len polarities;
   if 0 <? n then
     last_pol ← getitem polarities (-1);
     if (last_pol <? 0.1)%float
     then append feedback LOW_ENDING_MSG
     else mret tt
   else mret tt);;
  (size ← len feedback;
   if size =? 0 then append feedback FALLBACK_MSG else mret tt);;
  mret feedback.

End Heap.

(** ** The analysis endpoint *)

Record TextRequest : Type := { text : string }.

(** A JSON number as Python holds it: the conditional expression of the
    response yields the int [0] or a float. *)
Inductive number : Type :=
| PyInt (z : Z)
| PyFloat (f : float).

Record summary : Type := {
  num_sentences : Z;
  average_polarity : number
}.

Record analysis : Type := {
  analysis_summary : summary;
  feedback : list string;
  emotional_arc_plot_url : string
}.

(** What the endpoint gets from outside the repository: the interpreter, the
    TextBlob polarities of the sentences of a text, the string of a fresh
    [uuid.uuid4()], and matplotlib writing the figure of a polarity list to
    a path.  The last two act on the world outside the process. *)
Record collaborators (world : Type) : Type := {
  interpreter : Py.cpython;
  sentence_polarities : string -> list float;
  uuid4 : stateful world string;
  savefig : string -> list float -> stateful world unit
}.
Arguments interpreter {world} c.
Arguments sentence_polarities {world} c text.
Arguments uuid4 {world} c.
Arguments savefig {world} c plot_path polarities.

(** [os.path.join(a, b)] of posixpath. *)
Definition ends_with_sep (path : string) : bool :=
  match last (list_ascii_of_string path) with
  | Some c => Ascii.eqb c "/"
  | None => false
  end.

Definition os_path_join (a b : string) : string :=
  if String.prefix "/" b then b
  else if String.eqb a "" || ends_with_sep a then a +:+ b
  else a +:+ "/" +:+ b.

(** [analyze_sentiment], lines 17-24, when TextBlob returns. *)
Definition analyze_sentiment {world} (env : collaborators world) (text : string) : list float :=
  let polarities := sentence_polarities env text in
  polarities.

(** [create_sentiment_plot], lines 26-42: the figure is drawn from
    [polarities] and saved under the plots directory. *)
Definition create_sentiment_plot {world} (env : collaborators world)
    (polarities : list float) (filename : string) : stateful world string :=
  let plot_path := os_path_join "plots" filename in
  savefig env plot_path polarities;;
  mret plot_path.

(** [analyze_narrative_endpoint], lines 74-99. *)
Definition analyze_narrative_endpoint {world} (env : collaborators world)
    (request : TextRequest) : stateful world analysis :=
  let text_to_analyze := text request in
  let polarities := analyze_sentiment env text_to_analyze in
  feedback ← pure_result (get_structural_feedback polarities);
  uid ← uuid4 env;
  let filename := "plot_" +:+ uid +:+ ".png" in
  plot_path ← create_sentiment_plot env polarities filename;
  let plot_url := "/plots/" +:+ filename in
  mret {|
    analysis_summary := {|
      num_sentences := Py.len polarities;
      average_polarity :=
        match polarities with
        | _ :: _ =>
            PyFloat (Py.sum (interpreter env) polarities
                     / Py.float_of_int (Py.len polarities))%float
        | [] => PyInt 0
        end
    |};
    feedback := feedback;
    emotional_arc_plot_url := plot_url
  |}.

(** Lines 22-23 can raise: TextBlob splits the text into sentences with
    tokenizer data that a deployment may lack, and raises then.  [scorer]
    is TextBlob as deployed: the polarities of the sentences of a text, or
    the exception.  The exception leaves [analyze_sentiment], and the
    endpoint at line 81, before an identifier is drawn or a figure saved;
    otherwise the endpoint goes on with the polarities returned. *)
Definition endpoint_with_scorer {world} (scorer : string -> result (list float))
    (env : collaborators world) (request : TextRequest) : stateful world analysis :=
  match scorer (text request) with
  | Ok polarities =>
      analyze_narrative_endpoint
        {| interpreter := interpreter env;
           sentence_polarities := fun _ => polarities;
           uuid4 := uuid4 env;
           savefig := savefig env |}
        request
  | Raise e => pure_result (Raise e)
  end.

(** ** Files, and the plot-retrieval endpoint *)

(** A file tree without links: what [os.stat] walks. *)
Inductive node : Type :=
| File (data : list Byte.byte)
| Dir (entries : list (string * node)).

Record filesystem : Type := {
  root : node;
  cwd : list string   (* the working directory, as names from the root *)
}.

Fixpoint lookup_entry (name : string) (entries : list (string * node)) : option node :=
  match entries with
  | [] => None
  | (n, child) :: rest => if String.eqb n name then Some child else lookup_entry name rest
  end.

(** The node reached from [n] by a list of names. *)
Fixpoint descend (n : node) (names : list string) : option node :=
  match names with
  | [] => Some n
  | name :: rest =>
      match n with
      | Dir entries =>
          match lookup_entry name entries with
          | Some child => descend child rest
          | None => None
          end
      | File _ => None
      end
  end.

(** The components of a path, split at every ["/"]. *)
Fixpoint components (path : string) : list string :=
  match path with
  | EmptyString => [EmptyString]
  | String c rest =>
      match components rest with
      | comp :: comps =>
          if Ascii.eqb c "/" then EmptyString :: comp :: comps
          else String c comp :: comps
      | [] => [String c EmptyString]
      end
  end.

(** One component of a lookup: the place reached so far must be a
    directory; an empty component and ["."] stay, [".."] goes to the parent
    (the root is its own parent), a name goes down. *)
Definition walk_step (fs : filesystem) (path : string) (here : result (list string))
    (comp : string) : result (list string) :=
  here ← here;
  match descend (root fs) here with
  | Some (Dir _) =>
      if String.eqb comp "" || String.eqb comp "." then Ok here
      else if String.eqb comp ".." then Ok (removelast here)
      else Ok (here ++ [comp])
  | Some (File _) => Raise (NotADirectoryError path)
  | None => Raise (FileNotFoundError path)
  end.

(** [os.stat(path)]: the place the path leads to and the node there. *)
Definition os_stat (fs : filesystem) (path : string) : result (list string * node) :=
  if String.eqb path "" then Raise (FileNotFoundError path)
  else
    let start := if String.prefix "/" path then [] else cwd fs in
    there ← fold_left (walk_step fs path) (components path) (Ok start);
    match descend (root fs) there with
    | Some n => Ok (there, n)
    | None => Raise (FileNotFoundError path)
    end.

(** A lookup in progress has raised, if anything, one of the two lookup
    errors. *)
Definition lookup_error (path : string) (r : result (list string)) : Prop :=
  match r with
  | Ok _ => True
  | Raise e => e = FileNotFoundError path \/ e = NotADirectoryError path
  end.

(** The response object the handler returns: a path to send, not yet read. *)
Record FileResponse : Type := { path : string }.

Record http_response : Type := {
  status_code : Z;
  body : list Byte.byte
}.

(** [serve_plot], lines 103-105. *)
Definition serve_plot (filename : string) : FileResponse :=
  {| path := os_path_join "plots" filename |}.

(** Starlette's [FileResponse.__call__], run when the response is sent: it
    stats the path, turns [FileNotFoundError] into a [RuntimeError], refuses
    what is not a regular file with a [RuntimeError], and otherwise sends the
    file's bytes with status 200. *)
Definition send_file (fs : filesystem) (response : FileResponse) : result http_response :=
  match os_stat fs (path response) with
  | Ok (_, File data) => Ok {| status_code := 200; body := data |}
  | Ok (_, Dir _) =>
      Raise (RuntimeError ("File at path " +:+ path response +:+ " is not a file."))
  | Raise (FileNotFoundError _) =>
      Raise (RuntimeError ("File at path " +:+ path response +:+ " does not exist."))
  | Raise e => Raise e
  end.

(** What the caller receives: an [HTTPException] becomes a response of its
    status (404 is the not-found response); any other exception is unhandled
    and becomes the server-error response. *)
Definition respond (outcome : result http_response) : http_response :=
  match outcome with
  | Ok response => response
  | Raise (HTTPException status) => {| status_code := status; body := [] |}
  | Raise _ => {| status_code := 500; body := list_byte_of_string "Internal Server Error" |}
  end.

(** The handler called with [filename] and the sending of its response:
    what the caller of [GET /plots/{filename}] receives once the route has
    matched the request path and handed [filename] to [serve_plot]. *)
Definition get_plot (fs : filesystem) (filename : string) : http_response :=
  respond (send_file fs (serve_plot filename)).

(** *** The route, line 103

    Starlette compiles the route path [/plots/{filename}] to the regular
    expression [^/plots/(?P<filename>[^/]+)$]: a request path matches when
    it is [/plots/] followed by one or more characters none of which is
    [/], and these characters are the [filename] the handler is called
    with. *)
Fixpoint strip_prefix (prefix s : string) : option string :=
  match prefix with
  | EmptyString => Some s
  | String a prefix' =>
      match s with
      | String b s' => if Ascii.eqb a b then strip_prefix prefix' s' else None
      | EmptyString => None
      end
  end.

Definition has_sep (s : string) : bool :=
  existsb (Ascii.eqb "/") (list_ascii_of_string s).

Definition plots_route (request_path : string) : option string :=
  match strip_prefix "/plots/" request_path with
  | Some filename =>
      if String.eqb filename "" || has_sep filename then None else Some filename
  | None => None
  end.

(** [s.rstrip("/")]. *)
Fixpoint rstrip_sep (s : string) : string :=
  match s with
  | EmptyString => EmptyString
  | String c rest =>
      match rstrip_sep rest with
      | EmptyString => if Ascii.eqb c "/" then EmptyString else String c EmptyString
      | kept => String c kept
      end
  end.

(** The not-found response: the router raises [HTTPException(404)], which
    FastAPI answers with status 404 and the JSON object of the one member
    [detail], of value [Not Found]. *)
Definition quoted (s : string) : string :=
  String (ascii_of_byte Byte.x22) s +:+ String (ascii_of_byte Byte.x22) "".

Definition not_found : http_response := {|
  status_code := 404;
  body := list_byte_of_string ("{" +:+ quoted "detail" +:+ ":" +:+ quoted "Not Found" +:+ "}")
|}.

(** The redirection of [RedirectResponse]: status 307 and an empty body (the
    target is in a header). *)
Definition redirect : http_response := {| status_code := 307; body := [] |}.

(** A GET request whose path, as the server receives it (percent-decoded,
    dot segments not resolved), is [/plots/] followed by [rest], as
    Starlette's router answers it.  No other route of the application
    matches a path that starts so.  When the route matches, the handler is called with the
    file name.  When it does not, the router looks whether the path without
    its trailing separators (if it ends in one) or with a separator added
    (if it does not) matches, and redirects there if so; otherwise the
    request is not found. *)
Definition get_plots_path (fs : filesystem) (rest : string) : http_response :=
  let request_path := "/plots/" +:+ rest in
  match plots_route request_path with
  | Some filename => get_plot fs filename
  | None =>
      let redirect_path :=
        if ends_with_sep request_path then rstrip_sep request_path
        else request_path +:+ "/" in
      match plots_route redirect_path with
      | Some _ => redirect
      | None => not_found
      end
  end.

(** The plots output directory, and the places below it. *)
Definition plots_dir (fs : filesystem) : list string := cwd fs ++ ["plots"].

Definition inside_plots_dir (fs : filesystem) (place : list string) : Prop :=
  exists name rest, place = plots_dir fs ++ name :: rest.

(** A small deployment: the application directory holds [main.py] and the
    plots directory with one plot in it. *)
Definition main_py : list Byte.byte := list_byte_of_string "# main.py".
Definition a_plot : list Byte.byte := list_byte_of_string "PNG".

Definition demo_fs : filesystem := {|
  root := Dir [("app", Dir [("main.py", File main_py);
                            ("plots", Dir [("plot_1.png", File a_plot)])])];
  cwd := ["app"]
|}.

(** Collaborators to run the endpoint with: every text has the three
    sentences of polarity 1.0, -1.0 and 0.5, the identifier is a fixed one,
    and the world is the list of figures saved so far. *)
Definition demo_env : collaborators (list (string * list float)) := {|
  interpreter := Py.From312;
  sentence_polarities := fun _ => [1.0; -1.0; 0.5]%float;
  uuid4 := fun w => (Ok "16fd2706-8baf-433b-82eb-8c7fada847da", w);
  savefig := fun plot_path polarities w => (Ok tt, (plot_path, polarities) :: w)
|}.

(** ** Writing to the file tree: the startup code and the saved figure *)

(** The entries of a directory with [name] bound to [new]: replaced where it
    stands, or added at the end. *)
Fixpoint set_entry (name : string) (new : node) (entries : list (string * node)) :
    list (string * node) :=
  match entries with
  | [] => [(name, new)]
  | (n, child) :: rest =>
      if String.eqb n name then (n, new) :: rest
      else (n, child) :: set_entry name new rest
  end.

(** The tree [n] with [new] at the place [names]; the directories above that
    place must exist. *)
Fixpoint put (n : node) (names : list string) (new : node) : option node :=
  match names with
  | [] => Some new
  | name :: rest =>
      match n with
      | File _ => None
      | Dir entries =>
          let below :=
            match rest with
            | [] => Some new
            | _ :: _ =>
                match lookup_entry name entries with
                | Some child => put child rest new
                | None => None
                end
            end in
          match below with
          | Some child' => Some (Dir (set_entry name child' entries))
          | None => None
          end
      end
  end.

(** The components of a path without its trailing separators: [a/b/] names
    [b] in [a]. *)
Fixpoint names_of (comps : list string) : list string :=
  match comps with
  | [] => []
  | c :: rest =>
      match names_of rest with
      | [] => if String.eqb c "" then [] else [c]
      | kept => c :: kept
      end
  end.

(** [os.path.exists(path)]: whether [os.stat] succeeds. *)
Definition os_path_exists (fs : filesystem) (path : string) : bool :=
  match os_stat fs path with
  | Ok _ => true
  | Raise _ => false
  end.

(** A file name with the extension [.png], as [os.path.splitext] finds it:
    the name ends in [.png] and does not start with a dot. *)
Definition png_name (name : string) : bool :=
  match name with
  | String c _ => negb (Ascii.eqb c ".")
  | EmptyString => false
  end &&
  bool_decide (drop (String.length name - 4) (list_ascii_of_string name) =
               list_ascii_of_string ".png").

Definition png_path (path : string) : bool :=
  match last (components path) with
  | Some leaf => png_name leaf
  | None => false
  end.

(** The endpoint on a disk.  The world is the file tree and the number of
    identifiers drawn so far. *)
Record machine : Type := {
  disk : filesystem;
  draws : nat
}.

Section Disk.

(** Two classes of [OSError] are not among the constructors of [exn]:
    [FileExistsError] and [IsADirectoryError].  [other_os_error class path]
    stands for an exception of such a class. *)
Variable other_os_error : string -> string -> exn.

(** [os.mkdir(path)]: the parent must be a directory and the name must be
    free; trailing separators are ignored. *)
Definition os_mkdir (fs : filesystem) (path : string) : result filesystem :=
  if String.eqb path "" then Raise (FileNotFoundError path)
  else
    let names := names_of (components path) in
    let start := if String.prefix "/" path then [] else cwd fs in
    parent ← fold_left (walk_step fs path) (removelast names) (Ok start);
    match descend (root fs) parent with
    | Some (Dir _) =>
        match last names with
        | Some leaf =>
            if String.eqb leaf "." || String.eqb leaf ".."
            then Raise (other_os_error "FileExistsError" path)
            else
              match descend (root fs) (parent ++ [leaf]) with
              | Some _ => Raise (other_os_error "FileExistsError" path)
              | None =>
                  match put (root fs) (parent ++ [leaf]) (Dir []) with
                  | Some root' => Ok {| root := root'; cwd := cwd fs |}
                  | None => Raise (FileNotFoundError path)
                  end
              end
        | None => Raise (other_os_error "FileExistsError" path)
        end
    | Some (File _) => Raise (NotADirectoryError path)
    | None => Raise (FileNotFoundError path)
    end.

(** Lines 13-15, run when the module is loaded.  [os.makedirs("plots")] has
    no parent to make, the name having no directory part, and is
    [os.mkdir("plots")]. *)
Definition create_plots_directory (fs : filesystem) : result filesystem :=
  if negb (os_path_exists fs "plots") then os_mkdir fs "plots" else Ok fs.

(** [open(path, "wb")] followed by writing [data], which is how the figure
    reaches the disk: the parent must be a directory; a file of that name is
    replaced; a path that names a directory is refused. *)
Definition open_write (fs : filesystem) (path : string) (data : list Byte.byte) :
    result filesystem :=
  if String.eqb path "" then Raise (FileNotFoundError path)
  else
    let names := names_of (components path) in
    let start := if String.prefix "/" path then [] else cwd fs in
    parent ← fold_left (walk_step fs path) (removelast names) (Ok start);
    match descend (root fs) parent with
    | Some (Dir _) =>
        match last names with
        | Some leaf =>
            if ends_with_sep path || String.eqb leaf "." || String.eqb leaf ".."
            then Raise (other_os_error "IsADirectoryError" path)
            else
              match descend (root fs) (parent ++ [leaf]) with
              | Some (Dir _) => Raise (other_os_error "IsADirectoryError" path)
              | _ =>
                  match put (root fs) (parent ++ [leaf]) (File data) with
                  | Some root' => Ok {| root := root'; cwd := cwd fs |}
                  | None => Raise (FileNotFoundError path)
                  end
              end
        | None => Raise (other_os_error "IsADirectoryError" path)
        end
    | Some (File _) => Raise (NotADirectoryError path)
    | None => Raise (FileNotFoundError path)
    end.

(** What the endpoint gets on a machine: [ids] lists the identifiers that
    [uuid.uuid4()] will give, in the order of the draws, and [render] is
    the PNG image matplotlib draws for a polarity list.  [savefig] writes
    that image to the path it is given when the last component of the path
    is a [png_name]; for a path of another form matplotlib takes the format
    from the extension, adds one where there is none and refuses the ones it
    does not know, which [savefig_elsewhere] stands for. *)
Variable version : Py.cpython.
Variable polarities_of : string -> list float.
Variable ids : nat -> string.
Variable render : list float -> list Byte.byte.
Variable savefig_elsewhere : string -> list float -> stateful machine unit.

Definition disk_env : collaborators machine := {|
  interpreter := version;
  sentence_polarities := polarities_of;
  uuid4 := fun m => (Ok (ids (draws m)), {| disk := disk m; draws := S (draws m) |});
  savefig := fun plot_path polarities m =>
    if png_path plot_path then
      match open_write (disk m) plot_path (render polarities) with
      | Ok fs' => (Ok tt, {| disk := fs'; draws := draws m |})
      | Raise e => (Raise e, m)
      end
    else savefig_elsewhere plot_path polarities m
|}.

End Disk.

(** A name that can stand as one component of a path. *)
Definition plain_name (name : string) : Prop :=
  ~ In "/"%char (list_ascii_of_string name) /\
  name <> "" /\ name <> "." /\ name <> "..".

(** The file name the endpoint gives to the plot of identifier [uid]. *)
Definition plot_filename (uid : string) : string := "plot_" +:+ uid +:+ ".png".

(** A machine to run the endpoint on: two identifiers to draw, an image that
    shows the sign of each polarity, and two deployments besides [demo_fs],
    one where the plots directory has not been made and one where a regular
    file stands in its place. *)
Definition demo_os_error (class path : string) : exn :=
  RuntimeError (class +:+ ": " +:+ path).

Definition demo_polarities_of (text : string) : list float :=
  if String.eqb text "Bad." then [-0.7]%float else [1.0; -1.0; 0.5]%float.

Definition demo_ids (n : nat) : string :=
  match n with
  | O => "16fd2706-8baf-433b-82eb-8c7fada847da"
  | S _ => "886313e1-3b8a-4372-9b90-0c9aee199e5d"
  end.

Definition demo_render (polarities : list float) : list Byte.byte :=
  map (fun x => if (x <? 0)%float then Byte.x2d else Byte.x2b) polarities.

Definition demo_savefig_elsewhere (plot_path : string) (polarities : list float) :
    stateful machine unit :=
  fun m => (Raise (ValueError ("Format is not supported: " +:+ plot_path)), m).

Definition demo_disk_env : collaborators machine :=
  disk_env demo_os_error Py.From312 demo_polarities_of demo_ids demo_render
    demo_savefig_elsewhere.

Definition fresh_fs : filesystem := {|
  root := Dir [("app", Dir [("main.py", File main_py)])];
  cwd := ["app"]
|}.

Definition blocked_fs : filesystem := {|
  root := Dir [("app", Dir [("main.py", File main_py); ("plots", File a_plot)])];
  cwd := ["app"]
|}.

(** ** Facts about the builtins *)

Lemma getitem_last {A} (xs : list A) (x : A) :
  last xs = Some x -> Py.getitem xs (-1) = Ok x.
Proof.
  intros Hlast.
  assert (Hlen : (0 < length xs)%nat) by (destruct xs; [discriminate | simpl; lia]).
  unfold Py.getitem, Py.len.
  replace (-1 <? 0) with true by reflexivity.
  destruct (Z.ltb_spec (-1 + Z.of_nat (length xs)) 0) as [? | _]; [lia |].
  destruct (Z.leb_spec (Z.of_nat (length xs)) (-1 + Z.of_nat (length xs))) as [? | _]; [lia |].
  simpl.
  replace (Z.to_nat (-1 + Z.of_nat (length xs))) with (pred (length xs)) by lia.
  rewrite last_lookup in Hlast.
  now rewrite Hlast.
Qed.

Lemma getitem_empty {A} (i : Z) :
  Py.getitem (@nil A) i = Raise (IndexError "list index out of range").
Proof.
  unfold Py.getitem, Py.len. simpl.
  now destruct (_ || _).
Qed.

Lemma max_is_Ok (x : float) (rest : list float) :
  exists hi, Py.max (x :: rest) = Ok hi.
Proof. eexists. reflexivity. Qed.

Lemma min_is_Ok (x : float) (rest : list float) :
  exists lo, Py.min (x :: rest) = Ok lo.
Proof. eexists. reflexivity. Qed.

(** The running candidate of [max] and [min] is always an entry of the list. *)
Lemma fold_pick_In (pick : float -> float -> bool) (rest : list float) (x : float) :
  In (fold_left (fun best item => if pick best item then item else best) rest x) (x :: rest).
Proof.
  revert x. induction rest as [| y rest IH]; intros x; simpl.
  - now left.
  - destruct (IH (if pick x y then y else x)) as [Heq | Hin].
    + destruct (pick x y); [right; left | left]; exact Heq.
    + right. right. exact Hin.
Qed.

Lemma max_In (xs : list float) (hi : float) : Py.max xs = Ok hi -> In hi xs.
Proof.
  destruct xs as [| x rest]; [discriminate |].
  intros [= <-]. apply (fold_pick_In (fun best item => (best <? item)%float)).
Qed.

Lemma min_In (xs : list float) (lo : float) : Py.min xs = Ok lo -> In lo xs.
Proof.
  destruct xs as [| x rest]; [discriminate |].
  intros [= <-]. apply (fold_pick_In (fun best item => (item <? best)%float)).
Qed.

(** [<] on floats is a strict order: irreflexive and transitive, NaN
    included (it is below and above nothing). *)
Lemma SFltb_irrefl (a : spec_float) : SFltb a a = false.
Proof.
  unfold SFltb, SFcompare.
  destruct a as [s | s | | s m e]; try destruct s; try reflexivity;
    rewrite Z.compare_refl; change (Pos.compare_cont Eq m m) with (Pos.compare m m);
    rewrite Pos.compare_refl; reflexivity.
Qed.

Lemma SFltb_trans (a b c : spec_float) :
  SFltb a b = true -> SFltb b c = true -> SFltb a c = true.
Proof.
  unfold SFltb, SFcompare.
  destruct a as [sa | sa | | sa ma ea], b as [sb | sb | | sb mb eb],
    c as [sc | sc | | sc mc ec];
    repeat match goal with s : bool |- _ => destruct s end;
    try discriminate; try reflexivity.
  all: change (Pos.compare_cont Eq) with Pos.compare.
  all: destruct (Z.compare_spec ea eb), (Z.compare_spec eb ec), (Z.compare_spec ea ec);
    try discriminate; try reflexivity; try lia.
  all: destruct (Pos.compare_spec ma mb), (Pos.compare_spec mb mc),
    (Pos.compare_spec ma mc); simpl; try discriminate; try reflexivity; try lia.
Qed.

Lemma float_ltb_irrefl (a : float) : (a <? a)%float = false.
Proof. rewrite ltb_spec. apply SFltb_irrefl. Qed.

Lemma float_ltb_trans (a b c : float) :
  (a <? b)%float = true -> (b <? c)%float = true -> (a <? c)%float = true.
Proof. rewrite !ltb_spec. apply SFltb_trans. Qed.

(** The candidate kept by the loop of [max] has no seen entry above it. *)
Lemma fold_max_bound (rest seen : list float) (best : float) :
  (forall x, In x seen -> (best <? x)%float = false) ->
  forall x, In x (seen ++ rest) ->
    (fold_left (fun best item => if (best <? item)%float then item else best) rest best
     <? x)%float = false.
Proof.
  revert seen best. induction rest as [| item rest IH]; intros seen best Hseen x Hx.
  - rewrite app_nil_r in Hx. simpl. auto.
  - simpl. apply (IH (seen ++ [item])).
    + intros y Hy. apply in_app_or in Hy as [Hy | [<- | []]].
      * destruct (best <? item)%float eqn:Hlt; [| auto].
        destruct (item <? y)%float eqn:Hity; [| reflexivity].
        rewrite <- (Hseen y Hy). symmetry. eapply float_ltb_trans; eassumption.
      * destruct (best <? item)%float eqn:Hlt; [apply float_ltb_irrefl | exact Hlt].
    + rewrite <- app_assoc. exact Hx.
Qed.

(** The candidate kept by the loop of [min] has no seen entry below it. *)
Lemma fold_min_bound (rest seen : list float) (best : float) :
  (forall x, In x seen -> (x <? best)%float = false) ->
  forall x, In x (seen ++ rest) ->
    (x <? fold_left (fun best item => if (item <? best)%float then item else best) rest best
    )%float = false.
Proof.
  revert seen best. induction rest as [| item rest IH]; intros seen best Hseen x Hx.
  - rewrite app_nil_r in Hx. simpl. auto.
  - simpl. apply (IH (seen ++ [item])).
    + intros y Hy. apply in_app_or in Hy as [Hy | [<- | []]].
      * destruct (item <? best)%float eqn:Hlt; [| auto].
        destruct (y <? item)%float eqn:Hyit; [| reflexivity].
        rewrite <- (Hseen y Hy). symmetry. eapply float_ltb_trans; eassumption.
      * destruct (item <? best)%float eqn:Hlt; [apply float_ltb_irrefl | exact Hlt].
    + rewrite <- app_assoc. exact Hx.
Qed.

(** [max] returns an entry that no entry exceeds, [min] one that no entry
    is below. *)
Lemma max_is_greatest (xs : list float) (hi : float) :
  Py.max xs = Ok hi -> In hi xs /\ forall x, In x xs -> (hi <? x)%float = false.
Proof.
  intros Hmax. split; [exact (max_In xs hi Hmax) |].
  destruct xs as [| x0 rest]; [discriminate |].
  injection Hmax as <-. intros x Hx.
  apply (fold_max_bound rest [x0]); [| exact Hx].
  intros y [<- | []]. apply float_ltb_irrefl.
Qed.

Lemma min_is_least (xs : list float) (lo : float) :
  Py.min xs = Ok lo -> In lo xs /\ forall x, In x xs -> (x <? lo)%float = false.
Proof.
  intros Hmin. split; [exact (min_In xs lo Hmin) |].
  destruct xs as [| x0 rest]; [discriminate |].
  injection Hmin as <-. intros x Hx.
  apply (fold_min_bound rest [x0]); [| exact Hx].
  intros y [<- | []]. apply float_ltb_irrefl.
Qed.

(** ** The code computes the rule set at the thresholds 2, 0.2 and 0.1 *)

Lemma messages_distinct :
  FLAT_ARC_MSG <> LOW_ENDING_MSG /\ FLAT_ARC_MSG <> FALLBACK_MSG /\
  LOW_ENDING_MSG <> FALLBACK_MSG.
Proof. repeat split; discriminate. Qed.

Lemma get_structural_feedback_rules (polarities : list float) :
  get_structural_feedback polarities = Ok (Spec.feedback_rules 2 0.2 0.1 polarities).
Proof.
  unfold get_structural_feedback, Spec.feedback_rules, Spec.rule1_applies,
    Spec.rule2_applies, Py.len.
  destruct (last polarities) as [x |] eqn:Hlast.
  - assert (Hpos : (0 < length polarities)%nat).
    { destruct polarities; [discriminate | simpl; lia]. }
    rewrite (getitem_last _ _ Hlast).
    replace (0 <? Z.of_nat (length polarities)) with true
      by (symmetry; apply Z.ltb_lt; lia).
    destruct polarities as [| p ps]; [discriminate |].
    destruct (Nat.ltb_spec 2 (length (p :: ps))) as [Hlong | Hshort].
    + replace (2 <? Z.of_nat (length (p :: ps))) with true
        by (symmetry; apply Z.ltb_lt; lia).
      cbn [Py.max Py.min mbind result_bind mret result_ret andb].
      destruct (_ <? 0.2)%float; destruct (x <? 0.1)%float; reflexivity.
    + replace (2 <? Z.of_nat (length (p :: ps))) with false
        by (symmetry; apply Z.ltb_ge; lia).
      cbn [mbind result_bind mret result_ret andb].
      destruct (x <? 0.1)%float; reflexivity.
  - apply last_None in Hlast. subst polarities. reflexivity.
Qed.

Example ex_flat : get_structural_feedback [0.5; 0.5; 0.5; 0.5]%float = Ok [FLAT_ARC_MSG].
Proof. vm_compute. reflexivity. Qed.
Example ex_low : get_structural_feedback [0.05; 0.06]%float = Ok [LOW_ENDING_MSG].
Proof. vm_compute. reflexivity. Qed.
Example ex_fallback : get_structural_feedback [-0.9; 0.9; -0.9; 0.9]%float = Ok [FALLBACK_MSG].
Proof. vm_compute. reflexivity. Qed.
Example ex_both : get_structural_feedback [0.0; 0.05; 0.05]%float = Ok [FLAT_ARC_MSG; LOW_ENDING_MSG].
Proof. vm_compute. reflexivity. Qed.

(** What the rule set returns, by which of the two conditions hold. *)
Lemma feedback_rules_cases (n : nat) (range_thr end_thr : float) (sequence : list float) :
  Spec.feedback_rules n range_thr end_thr sequence =
    match Spec.rule1_applies n range_thr sequence, Spec.rule2_applies end_thr sequence with
    | true, true => [FLAT_ARC_MSG; LOW_ENDING_MSG]
    | true, false => [FLAT_ARC_MSG]
    | false, true => [LOW_ENDING_MSG]
    | false, false => [FALLBACK_MSG]
    end.
Proof.
  unfold Spec.feedback_rules.
  destruct (Spec.rule1_applies _ _ _), (Spec.rule2_applies _ _); reflexivity.
Qed.

Lemma get_structural_feedback_cases (polarities : list float) :
  get_structural_feedback polarities =
    Ok match Spec.flat_arc polarities, Spec.low_ending polarities with
       | true, true => [FLAT_ARC_MSG; LOW_ENDING_MSG]
       | true, false => [FLAT_ARC_MSG]
       | false, true => [LOW_ENDING_MSG]
       | false, false => [FALLBACK_MSG]
       end.
Proof.
  rewrite get_structural_feedback_rules, feedback_rules_cases. reflexivity.
Qed.

(** Rule 1's condition, spelled out. *)
Lemma flat_arc_iff (polarities : list float) :
  Spec.flat_arc polarities = true <->
  (2 < length polarities)%nat /\
  exists hi lo, Py.max polarities = Ok hi /\ Py.min polarities = Ok lo /\
                (hi - lo <? 0.2)%float = true.
Proof.
  unfold Spec.flat_arc, Spec.rule1_applies. rewrite andb_true_iff, Nat.ltb_lt.
  split.
  - intros [Hlen Hrange]. split; [exact Hlen |].
    destruct (Py.max polarities) as [hi | ]; [| discriminate].
    destruct (Py.min polarities) as [lo | ]; [| discriminate].
    exists hi, lo. auto.
  - intros [Hlen (hi & lo & -> & -> & Hrange)]. auto.
Qed.

(** Rule 2's condition, spelled out. *)
Lemma low_ending_iff (polarities : list float) :
  Spec.low_ending polarities = true <->
  polarities <> [] /\ exists x, last polarities = Some x /\ (x <? 0.1)%float = true.
Proof.
  unfold Spec.low_ending, Spec.rule2_applies. split.
  - destruct (last polarities) as [x |] eqn:Hlast; [| discriminate].
    intros Hx. split; [intros -> ; discriminate | eauto].
  - intros [_ (x & -> & Hx)]. exact Hx.
Qed.

Ltac by_rule_cases polarities :=
  rewrite (get_structural_feedback_cases polarities);
  destruct (Spec.flat_arc polarities) eqn:Hflat, (Spec.low_ending polarities) eqn:Hlow.

Ltac message_membership :=
  pose proof messages_distinct as (Hfl & Hff & Hlf);
  simpl in *; intuition (try discriminate; try congruence).

(** ** The claims about the feedback rules *)

(** C2: for every polarity sequence, the empty one included, the call returns
    a feedback list that is not empty; when neither threshold rule appended
    its message (neither message is in the list, equivalently neither rule's
    condition holds) the list is the fallback message alone. *)
Theorem feedback_never_empty (polarities : list float) :
  exists feedback,
    get_structural_feedback polarities = Ok feedback /\
    feedback <> [] /\
    (~ In FLAT_ARC_MSG feedback -> ~ In LOW_ENDING_MSG feedback ->
     feedback = [FALLBACK_MSG]) /\
    (Spec.flat_arc polarities = false -> Spec.low_ending polarities = false ->
     feedback = [FALLBACK_MSG]) /\
    get_structural_feedback [] = Ok [FALLBACK_MSG].
Proof.
  by_rule_cases polarities; eexists; (split; [reflexivity |]);
    repeat split; try discriminate; message_membership.
Qed.

(** C3: the flat-arc message is in the returned list exactly when the
    sequence has more than 2 entries and [max - min < 0.2], where [max] is
    an entry that no entry exceeds and [min] an entry that no entry is below;
    the message is then the first entry and occurs once; for
    [0.5, 0.5, 0.5, 0.5] the list is the flat-arc message alone. *)
Theorem flat_arc_rule (polarities : list float) :
  exists feedback,
    get_structural_feedback polarities = Ok feedback /\
    (In FLAT_ARC_MSG feedback <->
     (2 < length polarities)%nat /\
     exists hi lo, Py.max polarities = Ok hi /\ Py.min polarities = Ok lo /\
                   (hi - lo <? 0.2)%float = true) /\
    (forall hi lo, Py.max polarities = Ok hi -> Py.min polarities = Ok lo ->
     In hi polarities /\ In lo polarities /\
     forall x, In x polarities -> (hi <? x)%float = false /\ (x <? lo)%float = false) /\
    (In FLAT_ARC_MSG feedback ->
     exists rest, feedback = FLAT_ARC_MSG :: rest /\ ~ In FLAT_ARC_MSG rest) /\
    get_structural_feedback [0.5; 0.5; 0.5; 0.5]%float = Ok [FLAT_ARC_MSG].
Proof.
  assert (Hextremes : forall hi lo,
             Py.max polarities = Ok hi -> Py.min polarities = Ok lo ->
             In hi polarities /\ In lo polarities /\
             forall x, In x polarities ->
                       (hi <? x)%float = false /\ (x <? lo)%float = false).
  { intros hi lo Hhi Hlo.
    destruct (max_is_greatest _ _ Hhi) as [Hin_hi Hmax],
      (min_is_least _ _ Hlo) as [Hin_lo Hmin]. auto. }
  setoid_rewrite <- (flat_arc_iff polarities).
  by_rule_cases polarities; eexists; (split; [reflexivity |]);
    (split; [| split; [exact Hextremes | split; [| vm_compute; reflexivity]]]).
  all: try (clear Hextremes; message_membership; fail).
  all: intros _; eexists; (split; [reflexivity |]); clear Hextremes; message_membership.
Qed.

(** C4: the low-ending message is in the returned list exactly when the
    sequence is non-empty and its last entry is [< 0.1]; it is then the last
    entry; for [0.05, 0.06] the list is the low-ending message alone, rule 1
    being off because the length is 2. *)
Theorem low_ending_rule (polarities : list float) :
  exists feedback,
    get_structural_feedback polarities = Ok feedback /\
    (In LOW_ENDING_MSG feedback <->
     polarities <> [] /\
     exists x, last polarities = Some x /\ (x <? 0.1)%float = true) /\
    (In LOW_ENDING_MSG feedback ->
     exists front, feedback = front ++ [LOW_ENDING_MSG] /\ ~ In LOW_ENDING_MSG front) /\
    get_structural_feedback [0.05; 0.06]%float = Ok [LOW_ENDING_MSG] /\
    Spec.flat_arc [0.05; 0.06]%float = false.
Proof.
  setoid_rewrite <- (low_ending_iff polarities).
  by_rule_cases polarities; eexists; (split; [reflexivity |]);
    (split; [| split; [| split; vm_compute; reflexivity]]).
  all: try (message_membership; fail).
  - intros _. exists [FLAT_ARC_MSG]. split; [reflexivity | message_membership].
  - intros _. exists []. split; [reflexivity | message_membership].
Qed.

(** C5: the fallback message is in the returned list if and only if neither
    rule 1 nor rule 2 appended its message (neither message is in the list,
    equivalently neither condition holds), and then it is the sole entry; for
    [-0.9, 0.9, -0.9, 0.9] the list is the fallback message alone. *)
Theorem fallback_rule (polarities : list float) :
  exists feedback,
    get_structural_feedback polarities = Ok feedback /\
    (In FALLBACK_MSG feedback <->
     ~ In FLAT_ARC_MSG feedback /\ ~ In LOW_ENDING_MSG feedback) /\
    (In FALLBACK_MSG feedback <->
     Spec.flat_arc polarities = false /\ Spec.low_ending polarities = false) /\
    (In FALLBACK_MSG feedback -> feedback = [FALLBACK_MSG]) /\
    get_structural_feedback [-0.9; 0.9; -0.9; 0.9]%float = Ok [FALLBACK_MSG].
Proof.
  by_rule_cases polarities; eexists; (split; [reflexivity |]);
    (repeat split; try (vm_compute; reflexivity)); message_membership.
Qed.

(** C9: the returned list has at most 2 entries; when the conditions of both
    rules hold it is the flat-arc message followed by the low-ending message,
    without the fallback; [0.0, 0.05, 0.05] is such a sequence. *)
Theorem feedback_at_most_two (polarities : list float) :
  exists feedback,
    get_structural_feedback polarities = Ok feedback /\
    (length feedback <= 2)%nat /\
    (Spec.flat_arc polarities = true -> Spec.low_ending polarities = true ->
     feedback = [FLAT_ARC_MSG; LOW_ENDING_MSG] /\ ~ In FALLBACK_MSG feedback) /\
    Spec.flat_arc [0.0; 0.05; 0.05]%float = true /\
    Spec.low_ending [0.0; 0.05; 0.05]%float = true /\
    get_structural_feedback [0.0; 0.05; 0.05]%float = Ok [FLAT_ARC_MSG; LOW_ENDING_MSG].
Proof.
  by_rule_cases polarities; eexists; (split; [reflexivity |]);
    (split; [simpl; lia |]);
    (split; [| repeat split; vm_compute; reflexivity]);
    try discriminate.
  intros _ _. split; [reflexivity | message_membership].
Qed.

(** ** Running the heap-level function *)

Lemma bind_run {S A B} (m : stateful S A) (k : A -> stateful S B) (s s' : S) (a : A) :
  m s = (Ok a, s') -> (m ≫= k) s = k a s'.
Proof. intros Hm. unfold mbind, stateful_bind. now rewrite Hm. Qed.

Lemma heap_len_floats (h : gmap nat Heap.pyobj) (p : nat) (xs : list float) :
  h !! p = Some (Heap.FloatList xs) -> Heap.len p h = (Ok (Py.len xs), h).
Proof. intros Hp. unfold Heap.len. now rewrite Hp. Qed.

Lemma heap_len_strs (h : gmap nat Heap.pyobj) (p : nat) (xs : list string) :
  h !! p = Some (Heap.StrList xs) -> Heap.len p h = (Ok (Py.len xs), h).
Proof. intros Hp. unfold Heap.len. now rewrite Hp. Qed.

Lemma heap_read_floats {A} (f : list float -> result A) (h : gmap nat Heap.pyobj)
    (p : nat) (xs : list float) :
  h !! p = Some (Heap.FloatList xs) -> Heap.read_floats f p h = (f xs, h).
Proof. intros Hp. unfold Heap.read_floats. now rewrite Hp. Qed.

Lemma heap_append (h : gmap nat Heap.pyobj) (p : nat) (xs : list string) (s : string) :
  h !! p = Some (Heap.StrList xs) ->
  Heap.append p s h = (Ok tt, <[p := Heap.StrList (xs ++ [s])]> h).
Proof. intros Hp. unfold Heap.append. now rewrite Hp. Qed.

(** The first [if] statement: only the list at [r] can change. *)
Lemma heap_rule1 (h : gmap nat Heap.pyobj) (p r : nat) (xs : list float) (fb : list string) :
  h !! p = Some (Heap.FloatList xs) -> h !! r = Some (Heap.StrList fb) ->
  (n ← Heap.len p;
   if 2 <? n then
     max_pol ← Heap.max p;
     min_pol ← Heap.min p;
     if (max_pol - min_pol <? 0.2)%float
     then Heap.append r FLAT_ARC_MSG
     else mret tt
   else mret tt) h =
  (Ok tt, <[r := Heap.StrList (fb ++ if Spec.flat_arc xs then [FLAT_ARC_MSG] else [])]> h).
Proof.
  intros Hp Hr.
  rewrite (bind_run _ _ _ _ _ (heap_len_floats _ _ _ Hp)).
  unfold Spec.flat_arc, Spec.rule1_applies, Py.len.
  destruct (Nat.ltb_spec 2 (length xs)) as [Hlong | Hshort].
  - replace (2 <? Z.of_nat (length xs)) with true by (symmetry; apply Z.ltb_lt; lia).
    destruct xs as [| x rest]; [simpl in Hlong; lia |].
    destruct (max_is_Ok x rest) as [hi Hhi], (min_is_Ok x rest) as [lo Hlo].
    unfold Heap.max, Heap.min.
    rewrite (bind_run _ _ h h hi) by (rewrite (heap_read_floats _ _ _ _ Hp); now rewrite Hhi).
    rewrite (bind_run _ _ h h lo) by (rewrite (heap_read_floats _ _ _ _ Hp); now rewrite Hlo).
    rewrite Hhi, Hlo. cbn [andb].
    destruct (hi - lo <? 0.2)%float.
    + apply heap_append, Hr.
    + rewrite app_nil_r, (insert_id _ _ _ Hr). reflexivity.
  - replace (2 <? Z.of_nat (length xs)) with false by (symmetry; apply Z.ltb_ge; lia).
    cbn [andb]. rewrite app_nil_r, (insert_id _ _ _ Hr). reflexivity.
Qed.

(** The second [if] statement. *)
Lemma heap_rule2 (h : gmap nat Heap.pyobj) (p r : nat) (xs : list float) (fb : list string) :
  h !! p = Some (Heap.FloatList xs) -> h !! r = Some (Heap.StrList fb) ->
  (n ← Heap.len p;
   if 0 <? n then
     last_pol ← Heap.getitem p (-1);
     if (last_pol <? 0.1)%float
     then Heap.append r LOW_ENDING_MSG
     else mret tt
   else mret tt) h =
  (Ok tt, <[r := Heap.StrList (fb ++ if Spec.low_ending xs then [LOW_ENDING_MSG] else [])]> h).
Proof.
  intros Hp Hr.
  rewrite (bind_run _ _ _ _ _ (heap_len_floats _ _ _ Hp)).
  unfold Spec.low_ending, Spec.rule2_applies, Py.len.
  destruct (last xs) as [x |] eqn:Hlast.
  - assert (Hpos : (0 < length xs)%nat) by (destruct xs; [discriminate | simpl; lia]).
    replace (0 <? Z.of_nat (length xs)) with true by (symmetry; apply Z.ltb_lt; lia).
    unfold Heap.getitem.
    rewrite (bind_run _ _ h h x)
      by (rewrite (heap_read_floats _ _ _ _ Hp); now rewrite (getitem_last _ _ Hlast)).
    destruct (x <? 0.1)%float.
    + apply heap_append, Hr.
    + rewrite app_nil_r, (insert_id _ _ _ Hr). reflexivity.
  - apply last_None in Hlast. subst xs. simpl.
    rewrite app_nil_r, (insert_id _ _ _ Hr). reflexivity.
Qed.

(** The third [if] statement: [not feedback]. *)
Lemma heap_fallback (h : gmap nat Heap.pyobj) (r : nat) (fb : list string) :
  h !! r = Some (Heap.StrList fb) ->
  (size ← Heap.len r;
   if size =? 0 then Heap.append r FALLBACK_MSG else mret tt) h =
  (Ok tt, <[r := Heap.StrList (if bool_decide (fb = []) then [FALLBACK_MSG] else fb)]> h).
Proof.
  intros Hr.
  rewrite (bind_run _ _ _ _ _ (heap_len_strs _ _ _ Hr)).
  destruct fb as [| s fb]; simpl.
  - apply (heap_append h r [] FALLBACK_MSG Hr).
  - unfold Py.len. simpl length.
    replace (Z.of_nat (S (length fb)) =? 0) with false by (symmetry; apply Z.eqb_neq; lia).
    rewrite (insert_id _ _ _ Hr). reflexivity.
Qed.

(** The whole call: it allocates one list, fills it with what the rule set
    gives for the floats of the argument, and returns its address. *)
Lemma heap_get_structural_feedback_run (h : gmap nat Heap.pyobj) (p : nat)
    (polarities : list float) :
  h !! p = Some (Heap.FloatList polarities) ->
  Heap.get_structural_feedback p h =
    (Ok (fresh (dom h)),
     <[fresh (dom h) := Heap.StrList (Spec.feedback_rules 2 0.2 0.1 polarities)]> h).
Proof.
  intros Hp.
  set (r := fresh (dom h)).
  assert (Hfresh : h !! r = None) by (apply not_elem_of_dom, is_fresh).
  assert (Hrp : r <> p) by (intros ->; congruence).
  unfold Heap.get_structural_feedback.
  rewrite (bind_run _ _ h (<[r := Heap.StrList []]> h) r) by reflexivity.
  assert (Hp1 : <[r := Heap.StrList []]> h !! p = Some (Heap.FloatList polarities))
    by (rewrite lookup_insert_ne; auto).
  pose proof (heap_rule1 _ p r polarities [] Hp1 (lookup_insert_eq _ _ _)) as H1.
  rewrite insert_insert_eq in H1. simpl app in H1.
  set (fb1 := if Spec.flat_arc polarities then [FLAT_ARC_MSG] else []) in H1.
  assert (Hp2 : <[r := Heap.StrList fb1]> h !! p = Some (Heap.FloatList polarities))
    by (rewrite lookup_insert_ne; auto).
  pose proof (heap_rule2 _ p r polarities fb1 Hp2 (lookup_insert_eq _ _ _)) as H2.
  rewrite insert_insert_eq in H2.
  set (fb2 := fb1 ++ if Spec.low_ending polarities then [LOW_ENDING_MSG] else []) in H2.
  pose proof (heap_fallback (<[r := Heap.StrList fb2]> h) r fb2 (lookup_insert_eq _ _ _)) as H3.
  rewrite insert_insert_eq in H3.
  rewrite (bind_run _ _ _ _ _ H1), (bind_run _ _ _ _ _ H2), (bind_run _ _ _ _ _ H3).
  unfold fb2, fb1, Spec.feedback_rules, Spec.flat_arc, Spec.low_ending.
  reflexivity.
Qed.

(** C7: the call leaves the caller's list as it was: after it the heap holds
    the same floats in the same order at the argument's address, every other
    object that existed is untouched, and the only new object is the returned
    list.  Its content is the rule set at the constants 2, 0.2 and 0.1,
    whatever the heap and the address: no threshold comes from an input. *)
Theorem input_sequence_unchanged (h : gmap nat Heap.pyobj) (p : nat)
    (polarities : list float) :
  h !! p = Some (Heap.FloatList polarities) ->
  exists (r : nat) (h' : gmap nat Heap.pyobj) (feedback : list string),
    Heap.get_structural_feedback p h = (Ok r, h') /\
    h' !! p = Some (Heap.FloatList polarities) /\
    h !! r = None /\
    (forall q, q <> r -> h' !! q = h !! q) /\
    h' !! r = Some (Heap.StrList feedback) /\
    feedback = Spec.feedback_rules 2 0.2 0.1 polarities /\
    get_structural_feedback polarities = Ok feedback.
Proof.
  intros Hp.
  assert (Hfresh : h !! fresh (dom h) = None) by (apply not_elem_of_dom, is_fresh).
  exists (fresh (dom h)), (<[fresh (dom h) := Heap.StrList (Spec.feedback_rules 2 0.2 0.1 polarities)]> h),
    (Spec.feedback_rules 2 0.2 0.1 polarities).
  split; [apply heap_get_structural_feedback_run, Hp |].
  split; [rewrite lookup_insert_ne; [exact Hp | intros Heq; rewrite Heq in Hfresh; congruence] |].
  split; [exact Hfresh |].
  split; [intros q Hq; apply lookup_insert_ne; congruence |].
  split; [apply lookup_insert_eq |].
  split; [reflexivity | apply get_structural_feedback_rules].
Qed.

Lemma input_sequence_unchanged_witness :
  exists (r : nat) (h' : gmap nat Heap.pyobj) (feedback : list string),
    Heap.get_structural_feedback 7%nat
      {[ 7%nat := Heap.FloatList [0.5; 0.5; 0.5; 0.5]%float ]} = (Ok r, h') /\
    h' !! 7%nat = Some (Heap.FloatList [0.5; 0.5; 0.5; 0.5]%float) /\
    ({[ 7%nat := Heap.FloatList [0.5; 0.5; 0.5; 0.5]%float ]} : gmap nat Heap.pyobj) !! r = None /\
    (forall q, q <> r ->
       h' !! q = ({[ 7%nat := Heap.FloatList [0.5; 0.5; 0.5; 0.5]%float ]} : gmap nat Heap.pyobj) !! q) /\
    h' !! r = Some (Heap.StrList feedback) /\
    feedback = Spec.feedback_rules 2 0.2 0.1 [0.5; 0.5; 0.5; 0.5]%float /\
    get_structural_feedback [0.5; 0.5; 0.5; 0.5]%float = Ok feedback.
Proof.
  apply (input_sequence_unchanged _ 7%nat [0.5; 0.5; 0.5; 0.5]%float).
  reflexivity.
Defined.

(** ** The analysis response *)

(** The loop of [sum] before CPython 3.12 computes the sum as a finite sum
    is defined, entry after entry. *)
Lemma fold_add_sum_to (rest backwards : list float) :
  fold_left (fun acc item => (acc + item)%float) rest (Spec.sum_to backwards) =
  Spec.sum_to (rev rest ++ backwards).
Proof.
  revert backwards. induction rest as [| y rest IH]; intros backwards; [reflexivity |].
  cbn [fold_left rev]. rewrite <- app_assoc.
  exact (IH (y :: backwards)).
Qed.

Lemma neumaier_step_compensated (x y : float) (earlier : list float) :
  Py.neumaier_step (Spec.compensated_to (y :: earlier)) x =
  Spec.compensated_to (x :: y :: earlier).
Proof.
  change (Spec.compensated_to (x :: y :: earlier))
    with (let '(s, c) := Spec.compensated_to (y :: earlier) in
          let t := (s + x)%float in
          let lost := if (abs x <=? abs s)%float
                      then ((s - t) + x)%float
                      else ((x - t) + s)%float in
          (t, (c + lost)%float)).
  destruct (Spec.compensated_to (y :: earlier)) as [s c].
  unfold Py.neumaier_step. cbv zeta.
  now destruct (abs x <=? abs s)%float.
Qed.

(** So does the compensated loop of CPython 3.12 and later, for the sum and
    for the error beside it. *)
Lemma fold_neumaier_compensated (rest earlier : list float) (y : float) :
  fold_left Py.neumaier_step rest (Spec.compensated_to (y :: earlier)) =
  Spec.compensated_to (rev rest ++ y :: earlier).
Proof.
  revert y earlier. induction rest as [| x rest IH]; intros y earlier; [reflexivity |].
  cbn [fold_left rev]. rewrite <- app_assoc, neumaier_step_compensated.
  exact (IH x (y :: earlier)).
Qed.

(** [sum] of a non-empty list of floats is the sum of its entries, rounded
    as the interpreter rounds it. *)
Lemma sum_is_sum_of_entries (v : Py.cpython) (x : float) (rest : list float) :
  Py.sum v (x :: rest) =
    match v with
    | Py.Before312 => Spec.sum_in_order (x :: rest)
    | Py.From312 => Spec.compensated_sum (x :: rest)
    end.
Proof.
  destruct v; unfold Py.sum.
  - change (Py.float_of_int 0 + x)%float with (Spec.sum_to [x]).
    exact (fold_add_sum_to rest [x]).
  - change (Py.float_of_int 0 + x, 0)%float with (Spec.compensated_to [x]).
    rewrite (fold_neumaier_compensated rest [] x).
    unfold Spec.compensated_sum. cbn [rev].
    destruct (Spec.compensated_to (rev rest ++ [x])) as [s c].
    now rewrite andb_comm.
Qed.

(** The quotient the endpoint computes is the mean of the sequence. *)
Lemma quotient_is_mean (v : Py.cpython) (x : float) (rest : list float) :
  (Py.sum v (x :: rest) / Py.float_of_int (Py.len (x :: rest)))%float =
  Spec.arithmetic_mean v (x :: rest).
Proof.
  unfold Spec.arithmetic_mean, Py.len.
  now rewrite (sum_is_sum_of_entries v x rest); destruct v.
Qed.

(** C6: when the plot is written, the endpoint returns a response whose
    [num_sentences] is the length of the polarity sequence and whose
    [average_polarity] is the int 0 for the empty sequence and otherwise the
    arithmetic mean in floats: the entries summed as a finite sum is
    defined, each addition rounded (from CPython 3.12 with the rounding
    errors added back), and the sum divided by the number of entries.  For
    [1.0, -1.0, 0.5] it is [0.5/3]; for [0.1, 0.2, 0.3] it is
    [0.6000000000000001/3] before CPython 3.12 and [0.6/3] from then on;
    for the empty sequence the response has [num_sentences = 0],
    [average_polarity = 0] and the fallback message as its whole feedback. *)
Theorem analysis_summary_values {world : Type} (env : collaborators world)
    (request : TextRequest) (w w1 w2 : world) (uid : string) :
  let polarities := sentence_polarities env (text request) in
  uuid4 env w = (Ok uid, w1) ->
  savefig env ("plots/plot_" +:+ uid +:+ ".png") polarities w1 = (Ok tt, w2) ->
  exists response,
    analyze_narrative_endpoint env request w = (Ok response, w2) /\
    num_sentences (analysis_summary response) = Z.of_nat (length polarities) /\
    average_polarity (analysis_summary response) =
      match polarities with
      | [] => PyInt 0
      | _ :: _ => PyFloat (Spec.arithmetic_mean (interpreter env) polarities)
      end /\
    (polarities = [1.0; -1.0; 0.5]%float ->
     average_polarity (analysis_summary response) = PyFloat (0.5 / 3)%float) /\
    (polarities = [0.1; 0.2; 0.3]%float ->
     average_polarity (analysis_summary response) =
       match interpreter env with
       | Py.Before312 => PyFloat (0.6000000000000001 / 3)%float
       | Py.From312 => PyFloat (0.6 / 3)%float
       end) /\
    (polarities = [] ->
     num_sentences (analysis_summary response) = 0 /\
     average_polarity (analysis_summary response) = PyInt 0 /\
     feedback response = [FALLBACK_MSG]) /\
    get_structural_feedback polarities = Ok (feedback response).
Proof.
  intros polarities Huuid Hsave.
  unfold analyze_narrative_endpoint, analyze_sentiment, create_sentiment_plot.
  fold polarities.
  rewrite (get_structural_feedback_rules polarities).
  unfold pure_result.
  rewrite (bind_run _ _ w w _ eq_refl), (bind_run _ _ _ _ _ Huuid).
  change (os_path_join "plots" ("plot_" +:+ uid +:+ ".png"))
    with ("plots/plot_" +:+ uid +:+ ".png").
  rewrite (bind_run _ _ _ _ _ (bind_run _ _ _ _ _ Hsave)).
  eexists. split; [reflexivity |]. cbn [analysis_summary num_sentences average_polarity feedback].
  split; [reflexivity |].
  split.
  { destruct polarities as [| x rest]; [reflexivity |].
    now rewrite (quotient_is_mean (interpreter env) x rest). }
  split.
  { intros ->. destruct (interpreter env); vm_compute; reflexivity. }
  split.
  { intros ->. destruct (interpreter env); vm_compute; reflexivity. }
  split.
  { intros ->. repeat split. }
  reflexivity.
Qed.

Lemma analysis_summary_values_witness :
  exists response,
    analyze_narrative_endpoint demo_env {| text := "Good. Bad. Fine." |} [] =
      (Ok response,
       [("plots/plot_16fd2706-8baf-433b-82eb-8c7fada847da.png", [1.0; -1.0; 0.5]%float)]) /\
    num_sentences (analysis_summary response) = 3 /\
    average_polarity (analysis_summary response) =
      PyFloat (Spec.arithmetic_mean Py.From312 [1.0; -1.0; 0.5]%float) /\
    ([1.0; -1.0; 0.5]%float = [1.0; -1.0; 0.5]%float ->
     average_polarity (analysis_summary response) = PyFloat (0.5 / 3)%float) /\
    ([1.0; -1.0; 0.5]%float = [0.1; 0.2; 0.3]%float ->
     average_polarity (analysis_summary response) = PyFloat (0.6 / 3)%float) /\
    ([1.0; -1.0; 0.5]%float = [] ->
     num_sentences (analysis_summary response) = 0 /\
     average_polarity (analysis_summary response) = PyInt 0 /\
     feedback response = [FALLBACK_MSG]) /\
    get_structural_feedback [1.0; -1.0; 0.5]%float = Ok (feedback response).
Proof.
  apply (analysis_summary_values demo_env {| text := "Good. Bad. Fine." |} [] []
           [("plots/plot_16fd2706-8baf-433b-82eb-8c7fada847da.png", [1.0; -1.0; 0.5]%float)]
           "16fd2706-8baf-433b-82eb-8c7fada847da").
  - reflexivity.
  - reflexivity.
Defined.

(** ** Plot retrieval *)

Lemma descend_app (n : node) (front back : list string) :
  descend n (front ++ back) =
    match descend n front with
    | Some m => descend m back
    | None => None
    end.
Proof.
  revert n. induction front as [| name front IH]; intros n; simpl; [reflexivity |].
  destruct n as [data | entries]; [reflexivity |].
  destruct (lookup_entry name entries); [apply IH | reflexivity].
Qed.

(** A place that has something below it is a directory. *)
Lemma descend_parent_is_dir (n : node) (front : list string) (name : string) (m : node) :
  descend n (front ++ [name]) = Some m ->
  exists entries, descend n front = Some (Dir entries).
Proof.
  rewrite descend_app. destruct (descend n front) as [[data | entries] |]; simpl.
  - discriminate.
  - eauto.
  - discriminate.
Qed.

Lemma walk_step_lookup_error (fs : filesystem) (path : string)
    (here : result (list string)) (comp : string) :
  lookup_error path here -> lookup_error path (walk_step fs path here comp).
Proof.
  destruct here as [here | e]; simpl; [intros _ | auto].
  destruct (descend (root fs) here) as [[data | entries] |]; simpl; auto.
  destruct (_ || _); simpl; auto. destruct (String.eqb comp ".."); simpl; auto.
Qed.

Lemma walk_lookup_error (fs : filesystem) (path : string) (comps : list string)
    (here : result (list string)) :
  lookup_error path here -> lookup_error path (fold_left (walk_step fs path) comps here).
Proof.
  revert here. induction comps as [| comp comps IH]; intros here Hhere; simpl; [exact Hhere |].
  apply IH, walk_step_lookup_error, Hhere.
Qed.

(** [os.stat] raises nothing but the two lookup errors. *)
Lemma os_stat_raises (fs : filesystem) (path : string) (e : exn) :
  os_stat fs path = Raise e ->
  e = FileNotFoundError path \/ e = NotADirectoryError path.
Proof.
  unfold os_stat. destruct (String.eqb path ""); [intros [= <-]; auto |].
  pose proof (walk_lookup_error fs path (components path)
                (Ok (if String.prefix "/" path then [] else cwd fs)) I) as Hwalk.
  destruct (fold_left _ _ _) as [there | e']; simpl in *.
  - destruct (descend (root fs) there); [discriminate | intros [= <-]; auto].
  - intros [= <-]. exact Hwalk.
Qed.

(** A regular file at the joined path is sent as it is. *)
Lemma existing_plot_is_sent (fs : filesystem) (filename : string)
    (place : list string) (data : list Byte.byte) :
  os_stat fs (os_path_join "plots" filename) = Ok (place, File data) ->
  get_plot fs filename = {| status_code := 200; body := data |}.
Proof.
  intros Hstat. unfold get_plot, send_file, serve_plot. cbn [path].
  rewrite Hstat. reflexivity.
Qed.

(** C1, as the code has it: when [os.path.join("plots", filename)] is not an
    existing regular file, sending the response raises an exception that is
    no [HTTPException]; the caller gets the unhandled-failure response
    (status 500), not the not-found response (status 404). *)
Theorem missing_plot_is_unhandled_failure (fs : filesystem) (filename : string) :
  (forall place data, os_stat fs (os_path_join "plots" filename) <> Ok (place, File data)) ->
  (exists e, send_file fs (serve_plot filename) = Raise e /\
             forall status, e <> HTTPException status) /\
  get_plot fs filename =
    {| status_code := 500; body := list_byte_of_string "Internal Server Error" |} /\
  status_code (get_plot fs filename) <> 404.
Proof.
  intros Hmissing.
  unfold get_plot, send_file, serve_plot. cbn [path].
  destruct (os_stat fs (os_path_join "plots" filename)) as [[place [data | entries]] | e] eqn:Hstat.
  - destruct (Hmissing place data eq_refl).
  - split; [eexists; split; [reflexivity | discriminate] |].
    split; [reflexivity | discriminate].
  - destruct (os_stat_raises _ _ _ Hstat) as [-> | ->];
      (split; [eexists; split; [reflexivity | discriminate] |]);
      (split; [reflexivity | discriminate]).
Qed.

Lemma missing_plot_is_unhandled_failure_witness :
  (exists e, send_file demo_fs (serve_plot "nonexistent.png") = Raise e /\
             forall status, e <> HTTPException status) /\
  get_plot demo_fs "nonexistent.png" =
    {| status_code := 500; body := list_byte_of_string "Internal Server Error" |} /\
  status_code (get_plot demo_fs "nonexistent.png") <> 404.
Proof.
  apply (missing_plot_is_unhandled_failure demo_fs "nonexistent.png").
  intros place data. vm_compute. discriminate.
Defined.

(** C1, as the specification has it, fails for the file name of its own
    example: the plots directory holds no [nonexistent.png], and the caller
    gets status 500 with the server-error body, not status 404. *)
Lemma nonexistent_plot_is_not_a_404 :
  descend (root demo_fs) (plots_dir demo_fs ++ ["nonexistent.png"]) = None /\
  os_stat demo_fs (os_path_join "plots" "nonexistent.png") =
    Raise (FileNotFoundError "plots/nonexistent.png") /\
  send_file demo_fs (serve_plot "nonexistent.png") =
    Raise (RuntimeError "File at path plots/nonexistent.png does not exist.") /\
  get_plot demo_fs "nonexistent.png" =
    {| status_code := 500; body := list_byte_of_string "Internal Server Error" |} /\
  status_code (get_plot demo_fs "nonexistent.png") <> 404.
Proof.
  repeat split; try (vm_compute; reflexivity).
  vm_compute. discriminate.
Qed.

(** ** The file tree under writes *)

Lemma lookup_set_entry_eq (name : string) (new : node) (entries : list (string * node)) :
  lookup_entry name (set_entry name new entries) = Some new.
Proof.
  induction entries as [| [n child] rest IH]; simpl.
  - now rewrite String.eqb_refl.
  - destruct (String.eqb n name) eqn:Hn; simpl; rewrite Hn; [reflexivity | exact IH].
Qed.

Lemma lookup_set_entry_ne (name other : string) (new : node)
    (entries : list (string * node)) :
  other <> name ->
  lookup_entry other (set_entry name new entries) = lookup_entry other entries.
Proof.
  intros Hne. induction entries as [| [n child] rest IH]; simpl.
  - destruct (String.eqb_spec name other); [congruence | reflexivity].
  - destruct (String.eqb_spec n name) as [-> | Hn]; simpl.
    + destruct (String.eqb_spec name other); [congruence | reflexivity].
    + destruct (String.eqb n other); [reflexivity | exact IH].
Qed.

(** What was put is found, with everything below it. *)
Lemma descend_put (n n' new : node) (names below : list string) :
  put n names new = Some n' -> descend n' (names ++ below) = descend new below.
Proof.
  revert n n'. induction names as [| name rest IH]; intros n n' Hput; simpl in *.
  - now injection Hput as <-.
  - destruct n as [data | entries]; [discriminate |].
    destruct rest as [| name2 rest].
    + injection Hput as <-. simpl. now rewrite lookup_set_entry_eq.
    + destruct (lookup_entry name entries) as [child |]; [| discriminate].
      destruct (put child (name2 :: rest) new) as [child' |] eqn:Hbelow; [| discriminate].
      injection Hput as <-. cbn [descend]. rewrite lookup_set_entry_eq.
      exact (IH _ _ Hbelow).
Qed.

(** A path that leaves the written one at some directory sees the old tree. *)
Lemma descend_put_elsewhere (n n' new : node) (front back rest : list string)
    (name other : string) :
  put n (front ++ name :: back) new = Some n' -> other <> name ->
  descend n' (front ++ other :: rest) = descend n (front ++ other :: rest).
Proof.
  intros Hput Hne. revert n n' Hput.
  induction front as [| f front IH]; intros n n' Hput; simpl in *.
  - destruct n as [data | entries]; [discriminate |].
    destruct (match back with
              | [] => Some new
              | _ :: _ => match lookup_entry name entries with
                          | Some child => put child back new
                          | None => None
                          end
              end) as [child' |]; [| discriminate].
    injection Hput as <-. simpl. now rewrite lookup_set_entry_ne.
  - destruct n as [data | entries]; [discriminate |].
    destruct (front ++ name :: back) as [| name2 tail] eqn:Htail;
      [now destruct front |].
    destruct (lookup_entry f entries) as [child |] eqn:Hf; [| discriminate].
    destruct (put child (name2 :: tail) new) as [child' |] eqn:Hbelow; [| discriminate].
    injection Hput as <-. simpl. rewrite lookup_set_entry_eq.
    exact (IH _ _ Hbelow).
Qed.

(** The directories above the written place are directories before and
    after. *)
Lemma descend_put_above (n n' new : node) (front back : list string) (name : string) :
  put n (front ++ name :: back) new = Some n' ->
  (exists entries, descend n front = Some (Dir entries)) /\
  (exists entries, descend n' front = Some (Dir entries)).
Proof.
  revert n n'. induction front as [| f front IH]; intros n n' Hput; simpl in *.
  - destruct n as [data | entries]; [discriminate |].
    destruct (match back with
              | [] => Some new
              | _ :: _ => match lookup_entry name entries with
                          | Some child => put child back new
                          | None => None
                          end
              end) as [child' |]; [| discriminate].
    injection Hput as <-. eauto.
  - destruct n as [data | entries]; [discriminate |].
    destruct (front ++ name :: back) as [| name2 tail] eqn:Htail;
      [now destruct front |].
    destruct (lookup_entry f entries) as [child |] eqn:Hf; [| discriminate].
    destruct (put child (name2 :: tail) new) as [child' |] eqn:Hbelow; [| discriminate].
    injection Hput as <-. rewrite lookup_set_entry_eq.
    exact (IH _ _ Hbelow).
Qed.

(** A name can always be put in an existing directory. *)
Lemma put_in_directory (n new : node) (parent : list string) (leaf : string)
    (entries : list (string * node)) :
  descend n parent = Some (Dir entries) ->
  exists n', put n (parent ++ [leaf]) new = Some n'.
Proof.
  revert n. induction parent as [| p parent IH]; intros n Hdir; simpl in *.
  - injection Hdir as ->. eauto.
  - destruct n as [data | es]; [discriminate |].
    destruct (lookup_entry p es) as [child |]; [| discriminate].
    destruct (IH _ Hdir) as [child' Hchild].
    destruct (parent ++ [leaf]) as [| name2 tail] eqn:Htail; [now destruct parent |].
    rewrite Hchild. eauto.
Qed.

(** ** Paths of plain names *)

Lemma components_nonempty (path : string) : components path <> [].
Proof.
  destruct path as [| c rest]; simpl; [discriminate |].
  destruct (components rest); [discriminate |].
  destruct (Ascii.eqb c "/"); discriminate.
Qed.

Lemma components_no_sep (name : string) :
  ~ In "/"%char (list_ascii_of_string name) -> components name = [name].
Proof.
  induction name as [| c rest IH]; simpl; intros Hsep; [reflexivity |].
  rewrite IH by tauto.
  destruct (Ascii.eqb_spec c "/") as [-> | _]; [tauto | reflexivity].
Qed.

Lemma components_in_plots (name : string) :
  ~ In "/"%char (list_ascii_of_string name) ->
  components ("plots/" +:+ name) = ["plots"; name].
Proof.
  intros Hsep.
  change ("plots/" +:+ name)
    with (String "p" (String "l" (String "o" (String "t" (String "s" (String "/" name)))))).
  cbn [components]. rewrite (components_no_sep name Hsep). reflexivity.
Qed.

Lemma prefix_sep_no_sep (name : string) :
  ~ In "/"%char (list_ascii_of_string name) -> String.prefix "/" name = false.
Proof.
  destruct name as [| c rest]; [reflexivity |].
  intros Hsep. cbn [String.prefix].
  destruct (ascii_dec "/" c) as [<- | _]; [| reflexivity].
  destruct Hsep. now left.
Qed.

Lemma os_path_join_plots (name : string) :
  ~ In "/"%char (list_ascii_of_string name) ->
  os_path_join "plots" name = "plots/" +:+ name.
Proof.
  intros Hsep. unfold os_path_join. now rewrite (prefix_sep_no_sep name Hsep).
Qed.

Lemma list_ascii_of_append (front back : string) :
  list_ascii_of_string (front +:+ back) =
  list_ascii_of_string front ++ list_ascii_of_string back.
Proof.
  induction front as [| d front IH]; [reflexivity |].
  change (String d front +:+ back) with (String d (front +:+ back)).
  cbn [list_ascii_of_string app]. now rewrite IH.
Qed.

Lemma ends_with_sep_no_sep (name : string) :
  ~ In "/"%char (list_ascii_of_string name) -> ends_with_sep name = false.
Proof.
  unfold ends_with_sep. intros Hsep.
  destruct (last (list_ascii_of_string name)) as [c |] eqn:Hlast; [| reflexivity].
  destruct (Ascii.eqb_spec c "/") as [-> | _]; [| reflexivity].
  destruct Hsep. apply list_elem_of_In. rewrite last_lookup in Hlast.
  eapply list_elem_of_lookup_2, Hlast.
Qed.

Lemma ends_with_sep_in_plots (name : string) :
  name <> "" -> ~ In "/"%char (list_ascii_of_string name) ->
  ends_with_sep ("plots/" +:+ name) = false.
Proof.
  intros Hname Hsep. destruct name as [| c rest]; [congruence |].
  pose proof (ends_with_sep_no_sep _ Hsep) as Hlast. unfold ends_with_sep in *.
  rewrite list_ascii_of_append. cbn [list_ascii_of_string] in *.
  now rewrite last_app_cons.
Qed.

Lemma plain_name_eqb (name : string) :
  plain_name name ->
  String.eqb name "" = false /\ String.eqb name "." = false /\
  String.eqb name ".." = false.
Proof.
  intros (_ & H0 & H1 & H2). repeat split; now apply String.eqb_neq.
Qed.

(** A plain name leads one step down from a directory. *)
Lemma walk_step_plain (fs : filesystem) (path name : string) (here : list string)
    (entries : list (string * node)) :
  descend (root fs) here = Some (Dir entries) -> plain_name name ->
  walk_step fs path (Ok here) name = Ok (here ++ [name]).
Proof.
  intros Hdir Hname. destruct (plain_name_eqb name Hname) as (H0 & H1 & H2).
  unfold walk_step. cbn [mbind result_bind]. rewrite Hdir, H0, H1, H2. reflexivity.
Qed.

Lemma plain_plots : plain_name "plots".
Proof. repeat split; try discriminate. simpl. intuition discriminate. Qed.

(** The name the endpoint gives to a plot is plain when the identifier has
    no separator. *)
Lemma plain_plot_filename (uid : string) :
  ~ In "/"%char (list_ascii_of_string uid) -> plain_name (plot_filename uid).
Proof.
  intros Hsep. unfold plot_filename. repeat split; try discriminate.
  cbn [append list_ascii_of_string In].
  intros [H | [H | [H | [H | [H | Hin]]]]]; try discriminate.
  revert Hin Hsep. induction uid as [| c uid IH]; simpl.
  - intuition discriminate.
  - intros [<- | Hin] Hsep; [tauto |]. apply IH; tauto.
Qed.

(** [os.stat] of a plain name in the plots directory. *)
Lemma os_stat_in_plots (fs : filesystem) (name : string)
    (entries : list (string * node)) :
  plain_name name ->
  descend (root fs) (plots_dir fs) = Some (Dir entries) ->
  os_stat fs ("plots/" +:+ name) =
    match descend (root fs) (plots_dir fs ++ [name]) with
    | Some n => Ok (plots_dir fs ++ [name], n)
    | None => Raise (FileNotFoundError ("plots/" +:+ name))
    end.
Proof.
  intros Hname Hplots.
  destruct (descend_parent_is_dir _ _ _ _ Hplots) as [here Hcwd].
  unfold os_stat. rewrite (components_in_plots name (proj1 Hname)).
  cbn [append String.eqb Ascii.eqb Bool.eqb String.prefix fold_left].
  cbn -[walk_step descend plots_dir append].
  rewrite (walk_step_plain fs _ "plots" (cwd fs) here Hcwd plain_plots).
  fold (plots_dir fs).
  rewrite (walk_step_plain fs _ name (plots_dir fs) entries Hplots Hname).
  reflexivity.
Qed.

Lemma length_list_ascii (s : string) : length (list_ascii_of_string s) = String.length s.
Proof. induction s as [| c s IH]; simpl; [reflexivity | now rewrite IH]. Qed.

(** The name the endpoint gives to a plot has the extension [.png]. *)
Lemma png_plot_filename (uid : string) : png_name (plot_filename uid) = true.
Proof.
  unfold png_name, plot_filename.
  change ("plot_" +:+ uid +:+ ".png") with (String "p" ("lot_" +:+ uid +:+ ".png")) at 1.
  cbn [Ascii.eqb Bool.eqb negb andb]. apply bool_decide_eq_true.
  rewrite <- length_list_ascii.
  change ("plot_" +:+ uid +:+ ".png") with (("plot_" +:+ uid) +:+ ".png").
  rewrite (list_ascii_of_append ("plot_" +:+ uid) ".png"), length_app.
  replace (length (list_ascii_of_string ("plot_" +:+ uid)) +
           length (list_ascii_of_string ".png") - 4)%nat
    with (length (list_ascii_of_string ("plot_" +:+ uid))) by (simpl; lia).
  apply drop_app_length.
Qed.

Lemma png_path_in_plots (name : string) :
  ~ In "/"%char (list_ascii_of_string name) -> png_name name = true ->
  png_path ("plots/" +:+ name) = true.
Proof.
  intros Hsep Hpng. unfold png_path. now rewrite (components_in_plots name Hsep).
Qed.

(** ** The endpoint, step by step *)

Lemma bind_raise {S A B} (m : stateful S A) (k : A -> stateful S B) (s s' : S) (e : exn) :
  m s = (Raise e, s') -> (m ≫= k) s = (Raise e, s').
Proof. intros Hm. unfold mbind, stateful_bind. now rewrite Hm. Qed.

(** The path the endpoint saves the figure of identifier [uid] under. *)
Lemma plot_path_of_uid (uid : string) :
  os_path_join "plots" (plot_filename uid) = "plots/" +:+ plot_filename uid.
Proof. reflexivity. Qed.

Lemma endpoint_returns {world : Type} (env : collaborators world)
    (request : TextRequest) (w w1 w2 : world) (uid : string) :
  uuid4 env w = (Ok uid, w1) ->
  savefig env ("plots/" +:+ plot_filename uid)
    (sentence_polarities env (text request)) w1 = (Ok tt, w2) ->
  exists response,
    analyze_narrative_endpoint env request w = (Ok response, w2) /\
    emotional_arc_plot_url response = "/plots/" +:+ plot_filename uid.
Proof.
  intros Huuid Hsave.
  unfold analyze_narrative_endpoint, analyze_sentiment, create_sentiment_plot.
  rewrite (get_structural_feedback_rules (sentence_polarities env (text request))).
  unfold pure_result.
  rewrite (bind_run _ _ w w _ eq_refl), (bind_run _ _ _ _ _ Huuid).
  fold (plot_filename uid). rewrite plot_path_of_uid.
  rewrite (bind_run _ _ _ _ _ (bind_run _ _ _ _ _ Hsave)).
  eexists. split; reflexivity.
Qed.

Lemma endpoint_raises {world : Type} (env : collaborators world)
    (request : TextRequest) (w w1 w2 : world) (uid : string) (e : exn) :
  uuid4 env w = (Ok uid, w1) ->
  savefig env ("plots/" +:+ plot_filename uid)
    (sentence_polarities env (text request)) w1 = (Raise e, w2) ->
  analyze_narrative_endpoint env request w = (Raise e, w2).
Proof.
  intros Huuid Hsave.
  unfold analyze_narrative_endpoint, analyze_sentiment, create_sentiment_plot.
  rewrite (get_structural_feedback_rules (sentence_polarities env (text request))).
  unfold pure_result.
  rewrite (bind_run _ _ w w _ eq_refl), (bind_run _ _ _ _ _ Huuid).
  fold (plot_filename uid). rewrite plot_path_of_uid.
  now rewrite (bind_raise _ _ _ _ _ (bind_raise _ _ _ _ _ Hsave)).
Qed.

(** ** Saving and retrieving on a disk *)

Section DiskFacts.

Variable other_os_error : string -> string -> exn.

(** Writing a plain name in the plots directory puts the file there. *)
Lemma open_write_in_plots (fs : filesystem) (name : string) (data : list Byte.byte)
    (entries : list (string * node)) :
  plain_name name ->
  descend (root fs) (plots_dir fs) = Some (Dir entries) ->
  (forall es, descend (root fs) (plots_dir fs ++ [name]) <> Some (Dir es)) ->
  exists root',
    put (root fs) (plots_dir fs ++ [name]) (File data) = Some root' /\
    open_write other_os_error fs ("plots/" +:+ name) data =
      Ok {| root := root'; cwd := cwd fs |}.
Proof.
  intros Hname Hplots Htarget.
  destruct (descend_parent_is_dir _ _ _ _ Hplots) as [here Hcwd].
  destruct (plain_name_eqb name Hname) as (H0 & H1 & H2).
  destruct (put_in_directory (root fs) (File data) (plots_dir fs) name entries Hplots)
    as [root' Hput].
  exists root'. split; [exact Hput |].
  unfold open_write. rewrite (components_in_plots name (proj1 Hname)).
  rewrite (ends_with_sep_in_plots name (proj1 (proj2 Hname)) (proj1 Hname)).
  cbn [names_of]. rewrite H0.
  cbn [String.eqb Ascii.eqb Bool.eqb String.prefix removelast fold_left last].
  cbn -[walk_step descend plots_dir append put].
  rewrite (walk_step_plain fs _ "plots" (cwd fs) here Hcwd plain_plots).
  fold (plots_dir fs). cbn [mbind result_bind]. rewrite Hplots.
  rewrite H1, H2. cbn [orb].
  destruct (descend (root fs) (plots_dir fs ++ [name])) as [[data0 | es] |] eqn:Hold.
  - now rewrite Hput.
  - destruct (Htarget es eq_refl).
  - now rewrite Hput.
Qed.

(** After such a write the plots directory is still one, the file is found
    with its bytes, and the other names of the directory are as before. *)
Lemma after_write_in_plots (fs : filesystem) (name : string) (data : list Byte.byte)
    (root' : node) :
  plain_name name ->
  put (root fs) (plots_dir fs ++ [name]) (File data) = Some root' ->
  let fs' := {| root := root'; cwd := cwd fs |} in
  (exists entries, descend root' (plots_dir fs') = Some (Dir entries)) /\
  os_stat fs' ("plots/" +:+ name) = Ok (plots_dir fs ++ [name], File data) /\
  (forall other rest, other <> name ->
     descend root' (plots_dir fs ++ other :: rest) =
     descend (root fs) (plots_dir fs ++ other :: rest)).
Proof.
  intros Hname Hput fs'.
  assert (Hdir : exists entries, descend root' (plots_dir fs') = Some (Dir entries)).
  { exact (proj2 (descend_put_above _ _ _ (plots_dir fs) [] name Hput)). }
  split; [exact Hdir |]. split.
  - destruct Hdir as [entries Hdir].
    rewrite (os_stat_in_plots fs' name entries Hname Hdir).
    change (plots_dir fs') with (plots_dir fs). cbn [root fs'].
    pose proof (descend_put _ _ _ _ [] Hput) as Hfound. rewrite app_nil_r in Hfound.
    now rewrite Hfound.
  - intros other rest Hother.
    exact (descend_put_elsewhere _ _ _ (plots_dir fs) [] rest name other Hput Hother).
Qed.

(** A regular file of a plain name in the plots directory is what
    retrieval sends. *)
Lemma get_plot_in_plots (fs : filesystem) (name : string) (data : list Byte.byte)
    (entries : list (string * node)) :
  plain_name name ->
  descend (root fs) (plots_dir fs) = Some (Dir entries) ->
  descend (root fs) (plots_dir fs ++ [name]) = Some (File data) ->
  get_plot fs name = {| status_code := 200; body := data |}.
Proof.
  intros Hname Hplots Hfile.
  apply (existing_plot_is_sent fs name (plots_dir fs ++ [name])).
  rewrite (os_path_join_plots name (proj1 Hname)).
  rewrite (os_stat_in_plots fs name entries Hname Hplots). now rewrite Hfile.
Qed.

Variable version : Py.cpython.
Variable polarities_of : string -> list float.
Variable ids : nat -> string.
Variable render : list float -> list Byte.byte.
Variable savefig_elsewhere : string -> list float -> stateful machine unit.

(** Saving under a path with the extension [.png] is a write of the
    rendered image. *)
Lemma savefig_png (plot_path : string) (polarities : list float) (m : machine) :
  png_path plot_path = true ->
  savefig (disk_env other_os_error version polarities_of ids render savefig_elsewhere)
    plot_path polarities m =
    match open_write other_os_error (disk m) plot_path (render polarities) with
    | Ok fs' => (Ok tt, {| disk := fs'; draws := draws m |})
    | Raise e => (Raise e, m)
    end.
Proof. intros Hpng. cbn [savefig disk_env]. now rewrite Hpng. Qed.

(** One analysis on a disk whose plots directory exists. *)
Lemma analysis_on_disk (request : TextRequest) (m : machine)
    (entries : list (string * node)) :
  let env := disk_env other_os_error version polarities_of ids render savefig_elsewhere in
  let name := plot_filename (ids (draws m)) in
  ~ In "/"%char (list_ascii_of_string (ids (draws m))) ->
  descend (root (disk m)) (plots_dir (disk m)) = Some (Dir entries) ->
  (forall es, descend (root (disk m)) (plots_dir (disk m) ++ [name]) <> Some (Dir es)) ->
  exists root' response,
    put (root (disk m)) (plots_dir (disk m) ++ [name])
      (File (render (polarities_of (text request)))) = Some root' /\
    analyze_narrative_endpoint env request m =
      (Ok response,
       {| disk := {| root := root'; cwd := cwd (disk m) |}; draws := S (draws m) |}) /\
    emotional_arc_plot_url response = "/plots/" +:+ name.
Proof.
  intros env name Hsep Hplots Htarget.
  pose proof (plain_plot_filename _ Hsep) as Hname.
  destruct (open_write_in_plots (disk m) name (render (polarities_of (text request)))
              entries Hname Hplots Htarget) as (root' & Hput & Hwrite).
  destruct (endpoint_returns env request m
              {| disk := disk m; draws := S (draws m) |}
              {| disk := {| root := root'; cwd := cwd (disk m) |}; draws := S (draws m) |}
              (ids (draws m)) eq_refl) as (response & Hrun & Hurl).
  { unfold env.
    rewrite savefig_png by exact (png_path_in_plots _ (proj1 Hname) (png_plot_filename _)).
    cbn [sentence_polarities disk_env disk draws]. fold name. now rewrite Hwrite. }
  exists root', response. auto.
Qed.

End DiskFacts.

(** ** The startup code *)

Section StartupFacts.

Variable other_os_error : string -> string -> exn.

(** [os.stat("plots")] from a working directory that exists. *)
Lemma os_stat_plots (fs : filesystem) (here : list (string * node)) :
  descend (root fs) (cwd fs) = Some (Dir here) ->
  os_stat fs "plots" =
    match descend (root fs) (plots_dir fs) with
    | Some n => Ok (plots_dir fs, n)
    | None => Raise (FileNotFoundError "plots")
    end.
Proof.
  intros Hcwd. unfold os_stat.
  cbn [String.eqb Ascii.eqb Bool.eqb String.prefix components fold_left].
  cbn -[walk_step descend plots_dir].
  now rewrite (walk_step_plain fs _ "plots" (cwd fs) here Hcwd plain_plots).
Qed.

(** [os.mkdir("plots")] where the name is free. *)
Lemma os_mkdir_plots (fs : filesystem) (here : list (string * node)) :
  descend (root fs) (cwd fs) = Some (Dir here) ->
  descend (root fs) (plots_dir fs) = None ->
  exists root',
    put (root fs) (plots_dir fs) (Dir []) = Some root' /\
    os_mkdir other_os_error fs "plots" = Ok {| root := root'; cwd := cwd fs |}.
Proof.
  intros Hcwd Hfree.
  destruct (put_in_directory (root fs) (Dir []) (cwd fs) "plots" here Hcwd) as [root' Hput].
  exists root'. split; [exact Hput |].
  unfold os_mkdir.
  cbn [String.eqb Ascii.eqb Bool.eqb String.prefix components names_of removelast
         fold_left last mbind result_bind orb].
  cbn -[descend plots_dir put app]. rewrite Hcwd.
  fold (plots_dir fs). rewrite Hfree. unfold plots_dir in Hput |- *. now rewrite Hput.
Qed.

(** The startup code, when it returns, has returned either the tree as it
    was, with something called [plots] in it, or the tree with an empty
    plots directory put in. *)
Lemma create_plots_directory_cases (fs fs' : filesystem) :
  create_plots_directory other_os_error fs = Ok fs' ->
  (os_path_exists fs "plots" = true /\ fs' = fs) \/
  (os_path_exists fs "plots" = false /\
   (exists here, descend (root fs) (cwd fs) = Some (Dir here)) /\
   exists root', put (root fs) (plots_dir fs) (Dir []) = Some root' /\
                 fs' = {| root := root'; cwd := cwd fs |}).
Proof.
  unfold create_plots_directory.
  destruct (os_path_exists fs "plots") eqn:Hexists; cbn [negb].
  - intros [= <-]. now left.
  - intros Hmk. right. split; [reflexivity |].
    unfold os_mkdir in Hmk. revert Hmk.
    cbn [String.eqb Ascii.eqb Bool.eqb String.prefix components names_of removelast
           fold_left last mbind result_bind orb].
    cbn -[descend plots_dir put app].
    destruct (descend (root fs) (cwd fs)) as [[data | here] |] eqn:Hcwd; try discriminate.
    destruct (descend (root fs) (cwd fs ++ ["plots"])); [discriminate |].
    destruct (put (root fs) (cwd fs ++ ["plots"]) (Dir [])) as [root' |] eqn:Hput;
      [| discriminate].
    intros [= <-]. split; [eauto |]. exists root'. auto.
Qed.

End StartupFacts.

Lemma plot_filename_inj (uid1 uid2 : string) :
  plot_filename uid1 = plot_filename uid2 -> uid1 = uid2.
Proof.
  unfold plot_filename. intros Heq.
  apply (f_equal list_ascii_of_string) in Heq.
  rewrite !list_ascii_of_append in Heq.
  apply app_inv_head, app_inv_tail in Heq.
  apply (f_equal string_of_list_ascii) in Heq.
  now rewrite !string_of_list_ascii_of_string in Heq.
Qed.

(** ** Properties of the code beyond the claims *)

Section DiskProperties.

Variable other_os_error : string -> string -> exn.
Variable version : Py.cpython.
Variable polarities_of : string -> list float.
Variable ids : nat -> string.
Variable render : list float -> list Byte.byte.
Variable savefig_elsewhere : string -> list float -> stateful machine unit.

(** X1 (analyze_narrative_endpoint, create_sentiment_plot, serve_plot): on a
    disk whose plots directory exists, an analysis returns a plot URL of the
    form [/plots/<file name>], and retrieving that file name afterwards
    gives status 200 with the image drawn for the polarities of the text. *)
Theorem plot_url_serves_saved_figure (request : TextRequest) (m : machine)
    (entries : list (string * node)) :
  let env := disk_env other_os_error version polarities_of ids render savefig_elsewhere in
  let name := plot_filename (ids (draws m)) in
  ~ In "/"%char (list_ascii_of_string (ids (draws m))) ->
  descend (root (disk m)) (plots_dir (disk m)) = Some (Dir entries) ->
  (forall es, descend (root (disk m)) (plots_dir (disk m) ++ [name]) <> Some (Dir es)) ->
  exists response m',
    analyze_narrative_endpoint env request m = (Ok response, m') /\
    emotional_arc_plot_url response = "/plots/" +:+ name /\
    get_plot (disk m') name =
      {| status_code := 200; body := render (polarities_of (text request)) |} /\
    draws m' = S (draws m) /\
    cwd (disk m') = cwd (disk m).
Proof.
  intros env name Hsep Hplots Htarget.
  pose proof (plain_plot_filename _ Hsep) as Hname.
  destruct (analysis_on_disk other_os_error version polarities_of ids render savefig_elsewhere
              request m entries Hsep Hplots Htarget) as (root' & response & Hput & Hrun & Hurl).
  destruct (after_write_in_plots (disk m) name _ root' Hname Hput) as (_ & Hstat & _).
  eexists response, _. split; [exact Hrun |]. split; [exact Hurl |].
  split; [| split; reflexivity].
  apply (existing_plot_is_sent _ name (plots_dir (disk m) ++ [name])).
  rewrite (os_path_join_plots name (proj1 Hname)). exact Hstat.
Qed.

(** X2 (analyze_narrative_endpoint, serve_plot): two analyses in a row whose
    identifiers differ get different plot URLs, and after the second one
    both plots are retrieved, each with the image of its own text: the later
    request does not overwrite the earlier plot. *)
Theorem later_analysis_keeps_earlier_plot (first second : TextRequest) (m : machine)
    (entries : list (string * node)) :
  let env := disk_env other_os_error version polarities_of ids render savefig_elsewhere in
  let name1 := plot_filename (ids (draws m)) in
  let name2 := plot_filename (ids (S (draws m))) in
  ids (draws m) <> ids (S (draws m)) ->
  ~ In "/"%char (list_ascii_of_string (ids (draws m))) ->
  ~ In "/"%char (list_ascii_of_string (ids (S (draws m)))) ->
  descend (root (disk m)) (plots_dir (disk m)) = Some (Dir entries) ->
  (forall es, descend (root (disk m)) (plots_dir (disk m) ++ [name1]) <> Some (Dir es)) ->
  (forall es, descend (root (disk m)) (plots_dir (disk m) ++ [name2]) <> Some (Dir es)) ->
  exists response1 m1 response2 m2,
    analyze_narrative_endpoint env first m = (Ok response1, m1) /\
    analyze_narrative_endpoint env second m1 = (Ok response2, m2) /\
    emotional_arc_plot_url response1 <> emotional_arc_plot_url response2 /\
    get_plot (disk m2) name1 =
      {| status_code := 200; body := render (polarities_of (text first)) |} /\
    get_plot (disk m2) name2 =
      {| status_code := 200; body := render (polarities_of (text second)) |}.
Proof.
  intros env name1 name2 Hdiff Hsep1 Hsep2 Hplots Htarget1 Htarget2.
  pose proof (plain_plot_filename _ Hsep1) as Hname1.
  pose proof (plain_plot_filename _ Hsep2) as Hname2.
  assert (Hnames : name2 <> name1).
  { intros Heq. apply Hdiff. symmetry. exact (plot_filename_inj _ _ Heq). }
  destruct (analysis_on_disk other_os_error version polarities_of ids render savefig_elsewhere
              first m entries Hsep1 Hplots Htarget1)
    as (root1 & response1 & Hput1 & Hrun1 & Hurl1).
  destruct (after_write_in_plots (disk m) name1 _ root1 Hname1 Hput1)
    as ([entries1 Hplots1] & _ & Hkept1).
  set (m1 := {| disk := {| root := root1; cwd := cwd (disk m) |}; draws := S (draws m) |})
    in *.
  assert (Htarget2' : forall es,
             descend (root (disk m1)) (plots_dir (disk m1) ++ [plot_filename (ids (draws m1))])
             <> Some (Dir es)).
  { intros es. change (plots_dir (disk m1)) with (plots_dir (disk m)).
    cbn [m1 disk draws root]. fold name2. rewrite (Hkept1 name2 [] Hnames).
    apply Htarget2. }
  destruct (analysis_on_disk other_os_error version polarities_of ids render savefig_elsewhere
              second m1 entries1 Hsep2 Hplots1 Htarget2')
    as (root2 & response2 & Hput2 & Hrun2 & Hurl2).
  change (plot_filename (ids (draws m1))) with name2 in *.
  destruct (after_write_in_plots (disk m1) name2 _ root2 Hname2 Hput2)
    as ([entries2 Hplots2] & Hstat2 & Hkept2).
  eexists response1, m1, response2, _.
  split; [exact Hrun1 |]. split; [exact Hrun2 |]. split.
  - rewrite Hurl1, Hurl2. fold name1 name2. intros Heq.
    apply Hnames. symmetry.
    apply (f_equal list_ascii_of_string) in Heq.
    rewrite !list_ascii_of_append in Heq. apply app_inv_head in Heq.
    apply (f_equal string_of_list_ascii) in Heq.
    now rewrite !string_of_list_ascii_of_string in Heq.
  - split.
    + apply (get_plot_in_plots _ name1 _ entries2 Hname1 Hplots2).
      cbn [disk root]. change (plots_dir _) with (plots_dir (disk m)).
      assert (Hne : name1 <> name2) by congruence.
      pose proof (Hkept2 name1 [] Hne) as Hsame.
      change (plots_dir (disk m1)) with (plots_dir (disk m)) in Hsame.
      rewrite Hsame. cbn [m1 disk root].
      pose proof (descend_put _ _ _ _ [] Hput1) as Hfound. rewrite app_nil_r in Hfound.
      exact Hfound.
    + apply (existing_plot_is_sent _ name2 (plots_dir (disk m1) ++ [name2])).
      rewrite (os_path_join_plots name2 (proj1 Hname2)). exact Hstat2.
Qed.

(** X3 (analyze_narrative_endpoint, create_sentiment_plot): when the second
    of two analyses draws the identifier of the first, both get the same plot
    URL and the second figure replaces the first: retrieval gives the image
    of the second text. *)
Theorem repeated_identifier_overwrites (first second : TextRequest) (m : machine)
    (entries : list (string * node)) :
  let env := disk_env other_os_error version polarities_of ids render savefig_elsewhere in
  let name := plot_filename (ids (draws m)) in
  ids (S (draws m)) = ids (draws m) ->
  ~ In "/"%char (list_ascii_of_string (ids (draws m))) ->
  descend (root (disk m)) (plots_dir (disk m)) = Some (Dir entries) ->
  (forall es, descend (root (disk m)) (plots_dir (disk m) ++ [name]) <> Some (Dir es)) ->
  exists response1 m1 response2 m2,
    analyze_narrative_endpoint env first m = (Ok response1, m1) /\
    analyze_narrative_endpoint env second m1 = (Ok response2, m2) /\
    emotional_arc_plot_url response1 = emotional_arc_plot_url response2 /\
    get_plot (disk m1) name =
      {| status_code := 200; body := render (polarities_of (text first)) |} /\
    get_plot (disk m2) name =
      {| status_code := 200; body := render (polarities_of (text second)) |}.
Proof.
  intros env name Hsame Hsep Hplots Htarget.
  pose proof (plain_plot_filename _ Hsep) as Hname.
  destruct (analysis_on_disk other_os_error version polarities_of ids render savefig_elsewhere
              first m entries Hsep Hplots Htarget)
    as (root1 & response1 & Hput1 & Hrun1 & Hurl1).
  destruct (after_write_in_plots (disk m) name _ root1 Hname Hput1)
    as ([entries1 Hplots1] & Hstat1 & _).
  set (m1 := {| disk := {| root := root1; cwd := cwd (disk m) |}; draws := S (draws m) |})
    in *.
  assert (Hsep' : ~ In "/"%char (list_ascii_of_string (ids (draws m1)))).
  { cbn [m1 draws]. now rewrite Hsame. }
  assert (Htarget' : forall es,
             descend (root (disk m1)) (plots_dir (disk m1) ++ [plot_filename (ids (draws m1))])
             <> Some (Dir es)).
  { intros es. cbn [m1 draws]. rewrite Hsame. fold name.
    change (plots_dir (disk m1)) with (plots_dir (disk m)). cbn [m1 disk root].
    pose proof (descend_put _ _ _ _ [] Hput1) as Hfound. rewrite app_nil_r in Hfound.
    fold name in Hfound. rewrite Hfound. discriminate. }
  destruct (analysis_on_disk other_os_error version polarities_of ids render savefig_elsewhere
              second m1 entries1 Hsep' Hplots1 Htarget')
    as (root2 & response2 & Hput2 & Hrun2 & Hurl2).
  assert (Hname2 : plot_filename (ids (draws m1)) = name)
    by (cbn [m1 draws]; now rewrite Hsame).
  rewrite Hname2 in *.
  destruct (after_write_in_plots (disk m1) name _ root2 Hname Hput2) as (_ & Hstat2 & _).
  eexists response1, m1, response2, _.
  split; [exact Hrun1 |]. split; [exact Hrun2 |].
  split; [now rewrite Hurl1, Hurl2 |]. split.
  - apply (existing_plot_is_sent _ name (plots_dir (disk m) ++ [name])).
    rewrite (os_path_join_plots name (proj1 Hname)). exact Hstat1.
  - apply (existing_plot_is_sent _ name (plots_dir (disk m1) ++ [name])).
    rewrite (os_path_join_plots name (proj1 Hname)). exact Hstat2.
Qed.

End DiskProperties.

Section DiskEdges.

Variable other_os_error : string -> string -> exn.
Variable version : Py.cpython.
Variable polarities_of : string -> list float.
Variable ids : nat -> string.
Variable render : list float -> list Byte.byte.
Variable savefig_elsewhere : string -> list float -> stateful machine unit.

(** Writing below a [plots] that is not a directory. *)
Lemma open_write_plots_not_a_directory (fs : filesystem) (name : string)
    (data : list Byte.byte) (here : list (string * node)) :
  plain_name name ->
  descend (root fs) (cwd fs) = Some (Dir here) ->
  (forall es, descend (root fs) (plots_dir fs) <> Some (Dir es)) ->
  open_write other_os_error fs ("plots/" +:+ name) data =
    Raise (match descend (root fs) (plots_dir fs) with
           | Some _ => NotADirectoryError ("plots/" +:+ name)
           | None => FileNotFoundError ("plots/" +:+ name)
           end).
Proof.
  intros Hname Hcwd Hplots.
  destruct (plain_name_eqb name Hname) as (H0 & H1 & H2).
  unfold open_write. rewrite (components_in_plots name (proj1 Hname)).
  cbn [names_of]. rewrite H0.
  cbn [String.eqb Ascii.eqb Bool.eqb String.prefix removelast fold_left last].
  cbn -[walk_step descend plots_dir append put ends_with_sep].
  rewrite (walk_step_plain fs _ "plots" (cwd fs) here Hcwd plain_plots).
  fold (plots_dir fs). cbn [mbind result_bind].
  destruct (descend (root fs) (plots_dir fs)) as [[data0 | es] |] eqn:Hold.
  - reflexivity.
  - destruct (Hplots es eq_refl).
  - reflexivity.
Qed.

(** The startup code on a tree without [plots]. *)
Lemma create_plots_directory_fresh (fs : filesystem) (here : list (string * node)) :
  descend (root fs) (cwd fs) = Some (Dir here) ->
  descend (root fs) (plots_dir fs) = None ->
  exists root',
    put (root fs) (plots_dir fs) (Dir []) = Some root' /\
    create_plots_directory other_os_error fs = Ok {| root := root'; cwd := cwd fs |}.
Proof.
  intros Hcwd Hfree.
  destruct (os_mkdir_plots other_os_error fs here Hcwd Hfree) as (root' & Hput & Hmk).
  exists root'. split; [exact Hput |].
  unfold create_plots_directory, os_path_exists.
  now rewrite (os_stat_plots fs here Hcwd), Hfree.
Qed.

(** X4 (analyze_narrative_endpoint, create_sentiment_plot): when the plots
    directory is missing at the time of a request, the analysis raises
    [FileNotFoundError] for the plot path: there is no response, the disk is
    as it was, and the identifier has been drawn. *)
Theorem analysis_without_plots_directory (request : TextRequest) (m : machine)
    (here : list (string * node)) :
  let env := disk_env other_os_error version polarities_of ids render savefig_elsewhere in
  let name := plot_filename (ids (draws m)) in
  ~ In "/"%char (list_ascii_of_string (ids (draws m))) ->
  descend (root (disk m)) (cwd (disk m)) = Some (Dir here) ->
  descend (root (disk m)) (plots_dir (disk m)) = None ->
  analyze_narrative_endpoint env request m =
    (Raise (FileNotFoundError ("plots/" +:+ name)),
     {| disk := disk m; draws := S (draws m) |}).
Proof.
  intros env name Hsep Hcwd Hmissing.
  pose proof (plain_plot_filename _ Hsep) as Hname.
  apply (endpoint_raises env request m {| disk := disk m; draws := S (draws m) |}
           {| disk := disk m; draws := S (draws m) |} (ids (draws m))); [reflexivity |].
  unfold env.
  rewrite savefig_png by exact (png_path_in_plots _ (proj1 Hname) (png_plot_filename _)).
  cbn [sentence_polarities disk_env disk draws]. fold name.
  rewrite (open_write_plots_not_a_directory (disk m) name _ here Hname Hcwd)
    by (intros es; rewrite Hmissing; discriminate).
  now rewrite Hmissing.
Qed.

(** X5 (module startup, analyze_narrative_endpoint): when a regular file
    called [plots] stands in the working directory, the startup code accepts
    it, changes nothing and raises nothing, and every analysis then raises
    [NotADirectoryError] for its plot path. *)
Theorem plots_that_is_a_file (request : TextRequest) (m : machine)
    (data : list Byte.byte) :
  let env := disk_env other_os_error version polarities_of ids render savefig_elsewhere in
  let name := plot_filename (ids (draws m)) in
  ~ In "/"%char (list_ascii_of_string (ids (draws m))) ->
  descend (root (disk m)) (plots_dir (disk m)) = Some (File data) ->
  create_plots_directory other_os_error (disk m) = Ok (disk m) /\
  analyze_narrative_endpoint env request m =
    (Raise (NotADirectoryError ("plots/" +:+ name)),
     {| disk := disk m; draws := S (draws m) |}).
Proof.
  intros env name Hsep Hfile.
  pose proof (plain_plot_filename _ Hsep) as Hname.
  destruct (descend_parent_is_dir _ _ _ _ Hfile) as [here Hcwd].
  split.
  - unfold create_plots_directory, os_path_exists.
    now rewrite (os_stat_plots (disk m) here Hcwd), Hfile.
  - apply (endpoint_raises env request m {| disk := disk m; draws := S (draws m) |}
             {| disk := disk m; draws := S (draws m) |} (ids (draws m))); [reflexivity |].
    unfold env.
    rewrite savefig_png by exact (png_path_in_plots _ (proj1 Hname) (png_plot_filename _)).
    cbn [sentence_polarities disk_env disk draws]. fold name.
    rewrite (open_write_plots_not_a_directory (disk m) name _ here Hname Hcwd)
      by (intros es; rewrite Hfile; discriminate).
    now rewrite Hfile.
Qed.

(** X8 (module startup, analyze_narrative_endpoint, serve_plot): from a
    working directory without [plots], the startup code followed by an
    analysis followed by the retrieval of the returned file name gives
    status 200 with the image of the text. *)
Theorem startup_analysis_retrieval (request : TextRequest) (fs : filesystem)
    (drawn : nat) (here : list (string * node)) :
  let env := disk_env other_os_error version polarities_of ids render savefig_elsewhere in
  let name := plot_filename (ids drawn) in
  ~ In "/"%char (list_ascii_of_string (ids drawn)) ->
  descend (root fs) (cwd fs) = Some (Dir here) ->
  descend (root fs) (plots_dir fs) = None ->
  exists fs1 response m2,
    create_plots_directory other_os_error fs = Ok fs1 /\
    analyze_narrative_endpoint env request {| disk := fs1; draws := drawn |} =
      (Ok response, m2) /\
    emotional_arc_plot_url response = "/plots/" +:+ name /\
    get_plot (disk m2) name =
      {| status_code := 200; body := render (polarities_of (text request)) |}.
Proof.
  intros env name Hsep Hcwd Hfree.
  pose proof (plain_plot_filename _ Hsep) as Hname.
  destruct (create_plots_directory_fresh fs here Hcwd Hfree) as (root1 & Hput1 & Hstart).
  set (fs1 := {| root := root1; cwd := cwd fs |}).
  pose proof (descend_put _ _ _ _ [] Hput1) as Hplots1. rewrite app_nil_r in Hplots1.
  pose proof (descend_put _ _ _ _ [name] Hput1) as Hnone. cbn [descend lookup_entry] in Hnone.
  destruct (analysis_on_disk other_os_error version polarities_of ids render savefig_elsewhere
              request {| disk := fs1; draws := drawn |} [])
    as (root2 & response & Hput2 & Hrun & Hurl).
  { exact Hsep. }
  { exact Hplots1. }
  { intros es. cbn [disk draws]. change (plots_dir fs1) with (plots_dir fs).
    fold name. cbn [fs1 root]. rewrite Hnone. discriminate. }
  destruct (after_write_in_plots fs1 name _ root2 Hname Hput2) as (_ & Hstat & _).
  eexists fs1, response, _. split; [exact Hstart |]. split; [exact Hrun |].
  split; [exact Hurl |].
  apply (existing_plot_is_sent _ name (plots_dir fs1 ++ [name])).
  rewrite (os_path_join_plots name (proj1 Hname)). exact Hstat.
Qed.


End DiskEdges.

Section Startup.

Variable other_os_error : string -> string -> exn.

(** X6 (module startup): in a working directory without [plots], the startup
    code makes an empty plots directory there and leaves every other name of
    the working directory, with all below it, as it was. *)
Theorem startup_creates_plots_directory (fs : filesystem) (here : list (string * node)) :
  descend (root fs) (cwd fs) = Some (Dir here) ->
  descend (root fs) (plots_dir fs) = None ->
  exists fs',
    create_plots_directory other_os_error fs = Ok fs' /\
    cwd fs' = cwd fs /\
    descend (root fs') (plots_dir fs') = Some (Dir []) /\
    forall other rest, other <> "plots" ->
      descend (root fs') (cwd fs ++ other :: rest) =
      descend (root fs) (cwd fs ++ other :: rest).
Proof.
  intros Hcwd Hfree.
  destruct (create_plots_directory_fresh other_os_error fs here Hcwd Hfree)
    as (root' & Hput & Hstart).
  exists {| root := root'; cwd := cwd fs |}.
  split; [exact Hstart |]. split; [reflexivity |]. split.
  - pose proof (descend_put _ _ _ _ [] Hput) as Hfound. now rewrite app_nil_r in Hfound.
  - intros other rest Hother.
    exact (descend_put_elsewhere _ _ _ (cwd fs) [] rest "plots" other Hput Hother).
Qed.

(** X7 (module startup): the startup code is idempotent.  Once it has
    returned, [plots] exists, running it again returns the same tree, and
    where [plots] existed already the first run changed nothing either. *)
Theorem startup_is_idempotent (fs fs' : filesystem) :
  create_plots_directory other_os_error fs = Ok fs' ->
  os_path_exists fs' "plots" = true /\
  create_plots_directory other_os_error fs' = Ok fs' /\
  (os_path_exists fs "plots" = true -> fs' = fs).
Proof.
  intros Hstart.
  assert (Hexists : os_path_exists fs' "plots" = true).
  { destruct (create_plots_directory_cases other_os_error fs fs' Hstart)
      as [[Hexists ->] | (_ & [here Hcwd] & root' & Hput & ->)]; [exact Hexists |].
    destruct (proj2 (descend_put_above _ _ _ (cwd fs) [] "plots" Hput)) as [here' Hcwd'].
    pose proof (descend_put _ _ _ _ [] Hput) as Hfound. rewrite app_nil_r in Hfound.
    unfold os_path_exists.
    rewrite (os_stat_plots {| root := root'; cwd := cwd fs |} here' Hcwd').
    change (plots_dir {| root := root'; cwd := cwd fs |}) with (plots_dir fs).
    cbn [root]. now rewrite Hfound. }
  split; [exact Hexists |]. split.
  - unfold create_plots_directory. now rewrite Hexists.
  - intros Hbefore. revert Hstart. unfold create_plots_directory. rewrite Hbefore.
    now intros [= <-].
Qed.

End Startup.

(** [os.stat] of a plain name in [plots], whatever the tree. *)
Lemma os_stat_in_plots_cases (fs : filesystem) (name : string) :
  plain_name name ->
  os_stat fs ("plots/" +:+ name) =
    match descend (root fs) (cwd fs) with
    | Some (Dir _) =>
        match descend (root fs) (plots_dir fs) with
        | Some (Dir _) =>
            match descend (root fs) (plots_dir fs ++ [name]) with
            | Some n => Ok (plots_dir fs ++ [name], n)
            | None => Raise (FileNotFoundError ("plots/" +:+ name))
            end
        | Some (File _) => Raise (NotADirectoryError ("plots/" +:+ name))
        | None => Raise (FileNotFoundError ("plots/" +:+ name))
        end
    | Some (File _) => Raise (NotADirectoryError ("plots/" +:+ name))
    | None => Raise (FileNotFoundError ("plots/" +:+ name))
    end.
Proof.
  intros Hname. destruct (plain_name_eqb name Hname) as (H0 & H1 & H2).
  unfold os_stat. rewrite (components_in_plots name (proj1 Hname)).
  change (String.eqb ("plots/" +:+ name) "") with false.
  change (String.prefix "/" ("plots/" +:+ name)) with false.
  cbn [fold_left]. unfold walk_step. cbn [mbind result_bind].
  destruct (descend (root fs) (cwd fs)) as [[d0 | here] |]; try reflexivity.
  cbn [String.eqb Ascii.eqb Bool.eqb orb mbind result_bind]. fold (plots_dir fs).
  destruct (descend (root fs) (plots_dir fs)) as [[d1 | entries] |]; try reflexivity.
  rewrite H0, H1, H2. reflexivity.
Qed.

(** X9 (serve_plot): for a file name that is a plain name (no separator,
    not empty, not a dot name), retrieval gives status 200 with some bytes
    exactly when the plots directory holds a regular file of that name with
    those bytes: such a name never reaches a file outside the plots
    directory. *)
Theorem plain_filename_is_served_from_plots (fs : filesystem) (name : string)
    (data : list Byte.byte) :
  plain_name name ->
  (get_plot fs name = {| status_code := 200; body := data |} <->
   descend (root fs) (plots_dir fs ++ [name]) = Some (File data)) /\
  inside_plots_dir fs (plots_dir fs ++ [name]).
Proof.
  intros Hname. split; [| now exists name, []].
  split.
  - unfold get_plot, send_file, serve_plot. cbn [path].
    rewrite (os_path_join_plots name (proj1 Hname)).
    rewrite (os_stat_in_plots_cases fs name Hname).
    destruct (descend (root fs) (cwd fs)) as [[d0 | here] |];
      try (cbn [respond]; discriminate).
    destruct (descend (root fs) (plots_dir fs)) as [[d1 | entries] |];
      try (cbn [respond]; discriminate).
    destruct (descend (root fs) (plots_dir fs ++ [name])) as [[d2 | es] |];
      cbn [respond]; try discriminate.
    now intros [= <-].
  - intros Hfile.
    destruct (descend_parent_is_dir _ _ _ _ Hfile) as [entries Hplots].
    exact (get_plot_in_plots fs name data entries Hname Hplots Hfile).
Qed.

(** ** The route and the handler *)


Lemma has_sep_In (s : string) :
  has_sep s = true <-> In "/"%char (list_ascii_of_string s).
Proof.
  unfold has_sep. rewrite existsb_exists. split.
  - intros (c & Hin & Heq). apply Ascii.eqb_eq in Heq. now subst c.
  - intros Hin. exists "/"%char. now split.
Qed.

Lemma has_sep_false (s : string) :
  has_sep s = false <-> ~ In "/"%char (list_ascii_of_string s).
Proof.
  rewrite <- has_sep_In. destruct (has_sep s); split; congruence.
Qed.


Lemma plots_route_under_plots (rest : string) :
  plots_route ("/plots/" +:+ rest) =
    if String.eqb rest "" || has_sep rest then None else Some rest.
Proof. reflexivity. Qed.

(** A request for [/plots/] followed by a non-empty name without separator
    is answered by the handler called with that name. *)
Lemma matched_path_reaches_handler (fs : filesystem) (name : string) :
  name <> "" -> ~ In "/"%char (list_ascii_of_string name) ->
  get_plots_path fs name = get_plot fs name.
Proof.
  intros Hname Hsep. unfold get_plots_path. rewrite plots_route_under_plots.
  apply String.eqb_neq in Hname. apply has_sep_false in Hsep.
  now rewrite Hname, Hsep.
Qed.








(** Once the polarities are there, the endpoint raises exactly when drawing
    the identifier raises, or saving the figure does. *)
Lemma endpoint_raise_cases {world : Type}
    (env : collaborators world) (request : TextRequest) (w w' : world) (e : exn) :
  analyze_narrative_endpoint env request w = (Raise e, w') <->
  uuid4 env w = (Raise e, w') \/
  exists uid w1,
    uuid4 env w = (Ok uid, w1) /\
    savefig env ("plots/" +:+ plot_filename uid)
      (sentence_polarities env (text request)) w1 = (Raise e, w').
Proof.
  destruct (uuid4 env w) as [[uid | e0] w1] eqn:Huuid.
  - destruct (savefig env ("plots/" +:+ plot_filename uid)
                (sentence_polarities env (text request)) w1) as [[[] | e1] w2] eqn:Hsave.
    + destruct (endpoint_returns env request w w1 w2 uid Huuid Hsave) as (response & -> & _).
      split; [discriminate |].
      intros [Hraise | (uid' & w1' & [= <- <-] & Hsave')]; [discriminate |].
      rewrite Hsave in Hsave'. discriminate.
    + rewrite (endpoint_raises env request w w1 w2 uid e1 Huuid Hsave).
      split.
      * intros [= <- <-]. right. eauto.
      * intros [Hraise | (uid' & w1' & [= <- <-] & Hsave')]; [discriminate |].
        rewrite Hsave in Hsave'. now injection Hsave' as <- <-.
  - assert (Hrun : analyze_narrative_endpoint env request w = (Raise e0, w1)).
    { unfold analyze_narrative_endpoint, analyze_sentiment.
      rewrite (get_structural_feedback_rules (sentence_polarities env (text request))).
      unfold pure_result.
      now rewrite (bind_run _ _ w w _ eq_refl), (bind_raise _ _ _ _ _ Huuid). }
    rewrite Hrun. split.
    + intros [= <- <-]. now left.
    + intros [Hraise | (uid' & w1' & Hok & _)]; [| discriminate].
      now injection Hraise as <- <-.
Qed.

(** X13 (analyze_narrative_endpoint, analyze_sentiment): the endpoint
    raises an exception exactly when TextBlob raises it, and then the world
    is untouched, or drawing the identifier raises it, or saving the figure
    raises it, and then the world is as the failing step left it.  The
    feedback rules and the mean raise nothing, whatever the polarities, the
    empty list included. *)
Theorem endpoint_fails_only_with_collaborators {world : Type}
    (scorer : string -> result (list float)) (env : collaborators world)
    (request : TextRequest) (w w' : world) (e : exn) :
  endpoint_with_scorer scorer env request w = (Raise e, w') <->
  (scorer (text request) = Raise e /\ w' = w) \/
  exists polarities,
    scorer (text request) = Ok polarities /\
    (uuid4 env w = (Raise e, w') \/
     exists uid w1,
       uuid4 env w = (Ok uid, w1) /\
       savefig env ("plots/" +:+ plot_filename uid) polarities w1 = (Raise e, w')).
Proof.
  unfold endpoint_with_scorer.
  destruct (scorer (text request)) as [polarities | e0].
  - rewrite endpoint_raise_cases. cbn [uuid4 savefig sentence_polarities].
    split.
    + intros Hcases. right. exists polarities. now split.
    + intros [[Hraise _] | (polarities' & [= <-] & Hcases)]; [discriminate | exact Hcases].
  - unfold pure_result. split.
    + intros [= <- <-]. now left.
    + intros [[[= <-] ->] | (polarities & Hok & _)]; [reflexivity | discriminate].
Qed.

(** ** Sequences of one value *)

Lemma SFsub_self (a : spec_float) :
  SFleb (S754_finite true 4503599627370496 (-52)) a = true ->
  SFleb a (S754_finite false 4503599627370496 (-52)) = true ->
  exists s, SFsub prec emax a a = S754_zero s.
Proof.
  destruct a as [s | s | | s m e]; try destruct s; try discriminate; intros _ _;
    simpl; try (eexists; reflexivity).
  all: rewrite Z.min_id; unfold shl_align; rewrite Z.sub_diag; simpl.
  all: try rewrite Z.pos_sub_diag; simpl; eauto.
Qed.

(** A polarity in [-1, 1] minus itself is below the range threshold. *)
Lemma float_sub_self_lt (x : float) :
  (-1 <=? x)%float = true -> (x <=? 1)%float = true ->
  (x - x <? 0.2)%float = true.
Proof.
  rewrite !leb_spec, ltb_spec, sub_spec.
  change (Prim2SF (-1)) with (S754_finite true 4503599627370496 (-52)).
  change (Prim2SF 1) with (S754_finite false 4503599627370496 (-52)).
  intros Hlo Hhi.
  destruct (SFsub_self _ Hlo Hhi) as [s Hs].
  unfold SF64sub. rewrite Hs. vm_compute. reflexivity.
Qed.

Lemma fold_pick_repeat (pick : float -> float -> bool) (x : float) (n : nat) :
  pick x x = false ->
  fold_left (fun best item => if pick best item then item else best) (repeat x n) x = x.
Proof.
  intros Hpick. induction n as [| n IH]; simpl; [reflexivity |]. now rewrite Hpick.
Qed.

Lemma last_repeat {A} (x : A) (n : nat) : last (repeat x (S n)) = Some x.
Proof.
  induction n as [| n IH]; [reflexivity |].
  change (repeat x (S (S n))) with (x :: repeat x (S n)).
  now rewrite last_cons, IH.
Qed.

(** X12 (get_structural_feedback): a text of three or more sentences that
    all have the same polarity, a value in [-1, 1], always gets the flat-arc
    message, first in the list; the low-ending message follows exactly when
    that polarity is below 0.1, and the fallback is never given. *)
Theorem constant_sequence_is_flat (x : float) (n : nat) :
  (-1 <=? x)%float = true -> (x <=? 1)%float = true -> (3 <= n)%nat ->
  get_structural_feedback (repeat x n) =
    Ok (FLAT_ARC_MSG :: if (x <? 0.1)%float then [LOW_ENDING_MSG] else []).
Proof.
  intros Hlo Hhi Hn.
  destruct n as [| n]; [lia |].
  rewrite get_structural_feedback_cases.
  assert (Hflat : Spec.flat_arc (repeat x (S n)) = true).
  { unfold Spec.flat_arc, Spec.rule1_applies. rewrite repeat_length.
    replace (2 <? S n)%nat with true by (symmetry; apply Nat.ltb_lt; lia).
    cbn [repeat Py.max Py.min andb].
    rewrite (fold_pick_repeat (fun best item => (best <? item)%float))
      by apply float_ltb_irrefl.
    rewrite (fold_pick_repeat (fun best item => (item <? best)%float))
      by apply float_ltb_irrefl.
    exact (float_sub_self_lt x Hlo Hhi). }
  assert (Hlow : Spec.low_ending (repeat x (S n)) = (x <? 0.1)%float).
  { unfold Spec.low_ending, Spec.rule2_applies. now rewrite last_repeat. }
  rewrite Hflat, Hlow. now destruct (x <? 0.1)%float.
Qed.

(** ** Calls in a row on the heap *)

(** X11 (get_structural_feedback): two calls in a row, on the same list or
    on two lists, return two different new list objects, neither of them an
    argument; after the second call the first result still holds the
    feedback of the first argument, and both arguments are unchanged. *)
Theorem feedback_lists_are_fresh (h : gmap nat Heap.pyobj) (p q : nat)
    (xs ys : list float) :
  h !! p = Some (Heap.FloatList xs) ->
  h !! q = Some (Heap.FloatList ys) ->
  exists (r1 r2 : nat) (h1 h2 : gmap nat Heap.pyobj),
    Heap.get_structural_feedback p h = (Ok r1, h1) /\
    Heap.get_structural_feedback q h1 = (Ok r2, h2) /\
    r1 <> r2 /\ r1 <> p /\ r1 <> q /\ r2 <> p /\ r2 <> q /\
    h2 !! r1 = Some (Heap.StrList (Spec.feedback_rules 2 0.2 0.1 xs)) /\
    h2 !! r2 = Some (Heap.StrList (Spec.feedback_rules 2 0.2 0.1 ys)) /\
    h2 !! p = Some (Heap.FloatList xs) /\
    h2 !! q = Some (Heap.FloatList ys).
Proof.
  intros Hp Hq.
  set (r1 := fresh (dom h)).
  set (h1 := <[r1 := Heap.StrList (Spec.feedback_rules 2 0.2 0.1 xs)]> h).
  set (r2 := fresh (dom h1)).
  set (h2 := <[r2 := Heap.StrList (Spec.feedback_rules 2 0.2 0.1 ys)]> h1).
  assert (Hfresh1 : h !! r1 = None) by (apply not_elem_of_dom, is_fresh).
  assert (Hfresh2 : h1 !! r2 = None) by (apply not_elem_of_dom, is_fresh).
  assert (Hr1p : r1 <> p) by (intros Heq; rewrite Heq in Hfresh1; congruence).
  assert (Hr1q : r1 <> q) by (intros Heq; rewrite Heq in Hfresh1; congruence).
  assert (Hq1 : h1 !! q = Some (Heap.FloatList ys))
    by (unfold h1; rewrite lookup_insert_ne; auto).
  assert (Hp1 : h1 !! p = Some (Heap.FloatList xs))
    by (unfold h1; rewrite lookup_insert_ne; auto).
  assert (Hr11 : h1 !! r1 = Some (Heap.StrList (Spec.feedback_rules 2 0.2 0.1 xs)))
    by (unfold h1; apply lookup_insert_eq).
  assert (Hr2r1 : r2 <> r1) by (intros Heq; rewrite Heq in Hfresh2; congruence).
  assert (Hr2p : r2 <> p) by (intros Heq; rewrite Heq in Hfresh2; congruence).
  assert (Hr2q : r2 <> q) by (intros Heq; rewrite Heq in Hfresh2; congruence).
  exists r1, r2, h1, h2.
  split; [exact (heap_get_structural_feedback_run h p xs Hp) |].
  split; [exact (heap_get_structural_feedback_run h1 q ys Hq1) |].
  repeat split; auto.
  - unfold h2. rewrite lookup_insert_ne; auto.
  - unfold h2. apply lookup_insert_eq.
  - unfold h2. rewrite lookup_insert_ne; auto.
  - unfold h2. rewrite lookup_insert_ne; auto.
Qed.

(** ** The properties at concrete inputs *)

Ltac no_separator :=
  vm_compute; let H := fresh in
  intros H; repeat (destruct H as [H | H]; [discriminate |]); exact H.

Lemma plot_url_serves_saved_figure_witness :
  exists response m',
    analyze_narrative_endpoint demo_disk_env {| text := "Good. Bad. Fine." |}
      {| disk := demo_fs; draws := 0 |} = (Ok response, m') /\
    emotional_arc_plot_url response = "/plots/" +:+ plot_filename (demo_ids 0) /\
    get_plot (disk m') (plot_filename (demo_ids 0)) =
      {| status_code := 200; body := demo_render [1.0; -1.0; 0.5]%float |} /\
    draws m' = 1%nat /\
    cwd (disk m') = ["app"].
Proof.
  apply (plot_url_serves_saved_figure demo_os_error Py.From312 demo_polarities_of
           demo_ids demo_render demo_savefig_elsewhere {| text := "Good. Bad. Fine." |}
           {| disk := demo_fs; draws := 0 |} [("plot_1.png", File a_plot)]).
  - no_separator.
  - reflexivity.
  - intros es. vm_compute. discriminate.
Defined.

Lemma later_analysis_keeps_earlier_plot_witness :
  exists response1 m1 response2 m2,
    analyze_narrative_endpoint demo_disk_env {| text := "Good. Bad. Fine." |}
      {| disk := demo_fs; draws := 0 |} = (Ok response1, m1) /\
    analyze_narrative_endpoint demo_disk_env {| text := "Bad." |} m1 = (Ok response2, m2) /\
    emotional_arc_plot_url response1 <> emotional_arc_plot_url response2 /\
    get_plot (disk m2) (plot_filename (demo_ids 0)) =
      {| status_code := 200; body := demo_render [1.0; -1.0; 0.5]%float |} /\
    get_plot (disk m2) (plot_filename (demo_ids 1)) =
      {| status_code := 200; body := demo_render [-0.7]%float |}.
Proof.
  apply (later_analysis_keeps_earlier_plot demo_os_error Py.From312 demo_polarities_of
           demo_ids demo_render demo_savefig_elsewhere {| text := "Good. Bad. Fine." |} {| text := "Bad." |}
           {| disk := demo_fs; draws := 0 |} [("plot_1.png", File a_plot)]).
  - vm_compute. discriminate.
  - no_separator.
  - no_separator.
  - reflexivity.
  - intros es. vm_compute. discriminate.
  - intros es. vm_compute. discriminate.
Defined.

Lemma repeated_identifier_overwrites_witness :
  exists response1 m1 response2 m2,
    analyze_narrative_endpoint demo_disk_env {| text := "Good. Bad. Fine." |}
      {| disk := demo_fs; draws := 1 |} = (Ok response1, m1) /\
    analyze_narrative_endpoint demo_disk_env {| text := "Bad." |} m1 = (Ok response2, m2) /\
    emotional_arc_plot_url response1 = emotional_arc_plot_url response2 /\
    get_plot (disk m1) (plot_filename (demo_ids 1)) =
      {| status_code := 200; body := demo_render [1.0; -1.0; 0.5]%float |} /\
    get_plot (disk m2) (plot_filename (demo_ids 1)) =
      {| status_code := 200; body := demo_render [-0.7]%float |}.
Proof.
  apply (repeated_identifier_overwrites demo_os_error Py.From312 demo_polarities_of
           demo_ids demo_render demo_savefig_elsewhere {| text := "Good. Bad. Fine." |} {| text := "Bad." |}
           {| disk := demo_fs; draws := 1 |} [("plot_1.png", File a_plot)]).
  - reflexivity.
  - no_separator.
  - reflexivity.
  - intros es. vm_compute. discriminate.
Defined.

Lemma analysis_without_plots_directory_witness :
  analyze_narrative_endpoint demo_disk_env {| text := "Good. Bad. Fine." |}
    {| disk := fresh_fs; draws := 0 |} =
    (Raise (FileNotFoundError ("plots/" +:+ plot_filename (demo_ids 0))),
     {| disk := fresh_fs; draws := 1 |}).
Proof.
  apply (analysis_without_plots_directory demo_os_error Py.From312 demo_polarities_of
           demo_ids demo_render demo_savefig_elsewhere {| text := "Good. Bad. Fine." |}
           {| disk := fresh_fs; draws := 0 |} [("main.py", File main_py)]).
  - no_separator.
  - reflexivity.
  - reflexivity.
Defined.

Lemma plots_that_is_a_file_witness :
  create_plots_directory demo_os_error blocked_fs = Ok blocked_fs /\
  analyze_narrative_endpoint demo_disk_env {| text := "Good. Bad. Fine." |}
    {| disk := blocked_fs; draws := 0 |} =
    (Raise (NotADirectoryError ("plots/" +:+ plot_filename (demo_ids 0))),
     {| disk := blocked_fs; draws := 1 |}).
Proof.
  apply (plots_that_is_a_file demo_os_error Py.From312 demo_polarities_of
           demo_ids demo_render demo_savefig_elsewhere {| text := "Good. Bad. Fine." |}
           {| disk := blocked_fs; draws := 0 |} a_plot).
  - no_separator.
  - reflexivity.
Defined.

Lemma startup_creates_plots_directory_witness :
  exists fs',
    create_plots_directory demo_os_error fresh_fs = Ok fs' /\
    cwd fs' = cwd fresh_fs /\
    descend (root fs') (plots_dir fs') = Some (Dir []) /\
    forall other rest, other <> "plots" ->
      descend (root fs') (cwd fresh_fs ++ other :: rest) =
      descend (root fresh_fs) (cwd fresh_fs ++ other :: rest).
Proof.
  apply (startup_creates_plots_directory demo_os_error fresh_fs [("main.py", File main_py)]).
  - reflexivity.
  - reflexivity.
Defined.

Lemma startup_is_idempotent_witness :
  os_path_exists {| root := Dir [("app", Dir [("main.py", File main_py); ("plots", Dir [])])];
                    cwd := ["app"] |} "plots" = true /\
  create_plots_directory demo_os_error
    {| root := Dir [("app", Dir [("main.py", File main_py); ("plots", Dir [])])];
       cwd := ["app"] |} =
    Ok {| root := Dir [("app", Dir [("main.py", File main_py); ("plots", Dir [])])];
          cwd := ["app"] |} /\
  (os_path_exists fresh_fs "plots" = true ->
   {| root := Dir [("app", Dir [("main.py", File main_py); ("plots", Dir [])])];
      cwd := ["app"] |} = fresh_fs).
Proof.
  apply (startup_is_idempotent demo_os_error fresh_fs).
  reflexivity.
Defined.

Lemma startup_analysis_retrieval_witness :
  exists fs1 response m2,
    create_plots_directory demo_os_error fresh_fs = Ok fs1 /\
    analyze_narrative_endpoint demo_disk_env {| text := "Bad." |}
      {| disk := fs1; draws := 0 |} = (Ok response, m2) /\
    emotional_arc_plot_url response = "/plots/" +:+ plot_filename (demo_ids 0) /\
    get_plot (disk m2) (plot_filename (demo_ids 0)) =
      {| status_code := 200; body := demo_render [-0.7]%float |}.
Proof.
  apply (startup_analysis_retrieval demo_os_error Py.From312 demo_polarities_of
           demo_ids demo_render demo_savefig_elsewhere {| text := "Bad." |} fresh_fs 0
           [("main.py", File main_py)]).
  - no_separator.
  - reflexivity.
  - reflexivity.
Defined.

Lemma plain_filename_is_served_from_plots_witness :
  (get_plot demo_fs "plot_1.png" = {| status_code := 200; body := a_plot |} <->
   descend (root demo_fs) (plots_dir demo_fs ++ ["plot_1.png"]) = Some (File a_plot)) /\
  inside_plots_dir demo_fs (plots_dir demo_fs ++ ["plot_1.png"]).
Proof.
  apply (plain_filename_is_served_from_plots demo_fs "plot_1.png" a_plot).
  repeat split; try discriminate. no_separator.
Defined.

Lemma constant_sequence_is_flat_witness :
  get_structural_feedback (repeat 0.5%float 4) =
    Ok (FLAT_ARC_MSG :: if (0.5 <? 0.1)%float then [LOW_ENDING_MSG] else []).
Proof.
  apply (constant_sequence_is_flat 0.5%float 4).
  - reflexivity.
  - reflexivity.
  - lia.
Defined.

Lemma feedback_lists_are_fresh_witness :
  exists (r1 r2 : nat) (h1 h2 : gmap nat Heap.pyobj),
    Heap.get_structural_feedback 7%nat
      {[ 7%nat := Heap.FloatList [0.05; 0.06]%float ]} = (Ok r1, h1) /\
    Heap.get_structural_feedback 7%nat h1 = (Ok r2, h2) /\
    r1 <> r2 /\ r1 <> 7%nat /\ r1 <> 7%nat /\ r2 <> 7%nat /\ r2 <> 7%nat /\
    h2 !! r1 = Some (Heap.StrList (Spec.feedback_rules 2 0.2 0.1 [0.05; 0.06]%float)) /\
    h2 !! r2 = Some (Heap.StrList (Spec.feedback_rules 2 0.2 0.1 [0.05; 0.06]%float)) /\
    h2 !! 7%nat = Some (Heap.FloatList [0.05; 0.06]%float) /\
    h2 !! 7%nat = Some (Heap.FloatList [0.05; 0.06]%float).
Proof.
  apply (feedback_lists_are_fresh _ 7%nat 7%nat [0.05; 0.06]%float [0.05; 0.06]%float);
    reflexivity.
Defined.

